(** * The chat client's synchronisation logic (class [AuthUI], auth-ui.js)

    A shallow embedding of the [AuthUI] class: its fields, the part of the
    page it writes to, the Firestore listeners it registers, and the event
    handlers that move it from one state to the next.

    JavaScript strings are modelled as Rocq strings whose characters stand for
    the UTF-16 code units U+0000..U+00FF; the string built-ins used by the
    class ([trim], [toLowerCase], [includes], [split], [encodeURIComponent],
    and the text serialisation behind [escapeHtml]) are given on that range
    as ECMAScript and the HTML standard define them.

    Left out are the login and registration forms, the language switcher,
    the opening and closing of the search modal and the scroll position of
    the message list: none of them reads or writes a field that the
    subscriptions, the message log, the presence set or the search use. *)

From stdpp Require Import gmap strings list.
From Stdlib Require Import ZArith Ascii String.

Local Open Scope bool_scope.

(** ** String built-ins *)

Module JsString.

(** The double quote, which the markup templates need. *)
Definition dq : string := String "034"%char EmptyString.

Definition code (c : ascii) : nat := nat_of_ascii c.

Definition between (lo hi n : nat) : bool := (lo <=? n)%nat && (n <=? hi)%nat.

(** WhiteSpace and LineTerminator code units below U+0100:
    TAB, LF, VT, FF, CR, SP and NBSP. *)
Definition isWhiteSpace (c : ascii) : bool :=
  between 9 13 (code c) || (code c =? 32)%nat || (code c =? 160)%nat.

(** [String.prototype.toLowerCase] on one code unit: A-Z, and the Latin-1
    capitals U+00C0..U+00DE except the multiplication sign U+00D7. *)
Definition lowerChar (c : ascii) : ascii :=
  let n := code c in
  if between 65 90 n || (between 192 222 n && negb (n =? 215)%nat)
  then ascii_of_nat (n + 32)
  else c.

Fixpoint toLowerCase (s : string) : string :=
  match s with
  | EmptyString => EmptyString
  | String c s' => String (lowerChar c) (toLowerCase s')
  end.

Fixpoint trimStart (s : string) : string :=
  match s with
  | EmptyString => EmptyString
  | String c s' => if isWhiteSpace c then trimStart s' else s
  end.

Definition isEmpty (s : string) : bool :=
  match s with EmptyString => true | String _ _ => false end.

Fixpoint trimEnd (s : string) : string :=
  match s with
  | EmptyString => EmptyString
  | String c s' =>
      let r := trimEnd s' in
      if isWhiteSpace c && isEmpty r then EmptyString else String c r
  end.

Definition trim (s : string) : string := trimEnd (trimStart s).

Fixpoint startsWith (s p : string) : bool :=
  match p, s with
  | EmptyString, _ => true
  | String _ _, EmptyString => false
  | String a p', String b s' => if Ascii.eqb a b then startsWith s' p' else false
  end.

(** [s.includes(t)]: [t] occurs in [s] at some position. *)
Fixpoint includes (s t : string) : bool :=
  startsWith s t ||
  match s with
  | EmptyString => false
  | String _ s' => includes s' t
  end.

(** [s.split(sep)[0]] for a one-character separator: the part of [s]
    before the first occurrence of [sep], all of [s] when there is none. *)
Fixpoint splitHead (sep : ascii) (s : string) : string :=
  match s with
  | EmptyString => EmptyString
  | String c s' => if Ascii.eqb c sep then EmptyString else String c (splitHead sep s')
  end.

Definition hexDigit (n : nat) : ascii :=
  if (n <? 10)%nat then ascii_of_nat (48 + n) else ascii_of_nat (55 + n).

Definition percentByte (n : nat) : string :=
  String "%"%char (String (hexDigit (n / 16)) (String (hexDigit (n mod 16)) EmptyString)).

(** Characters [encodeURIComponent] leaves alone: letters, digits and
    - _ . ! ~ * ' ( ) *)
Definition isUriUnreserved (c : ascii) : bool :=
  let n := code c in
  between 65 90 n || between 97 122 n || between 48 57 n ||
  existsb (Nat.eqb n) [45; 95; 46; 33; 126; 42; 39; 40; 41].

(** One code unit below U+0100 percent-encoded through its UTF-8 bytes. *)
Definition encodeUnit (c : ascii) : string :=
  let n := code c in
  if isUriUnreserved c then String c EmptyString
  else if (n <? 128)%nat then percentByte n
  else percentByte (192 + n / 64) +:+ percentByte (128 + n mod 64).

Fixpoint encodeURIComponent (s : string) : string :=
  match s with
  | EmptyString => EmptyString
  | String c s' => encodeUnit c +:+ encodeURIComponent s'
  end.

(** Serialisation of a text node (what [innerHTML] returns for an element
    whose only child is text): the four replacements of the HTML standard's
    "escaping a string" outside attribute mode. *)
Definition escapeUnit (c : ascii) : string :=
  let n := code c in
  if (n =? 38)%nat then "&amp;"
  else if (n =? 60)%nat then "&lt;"
  else if (n =? 62)%nat then "&gt;"
  else if (n =? 160)%nat then "&nbsp;"
  else String c EmptyString.

Fixpoint serializeText (s : string) : string :=
  match s with
  | EmptyString => EmptyString
  | String c s' => escapeUnit c +:+ serializeText s'
  end.

(** JavaScript's [a || b] where [a] is a string or null: the empty string
    and null are both falsy. *)
Definition orElse (a : option string) (b : string) : string :=
  match a with
  | Some (String c s) => String c s
  | _ => b
  end.

End JsString.

Import JsString.

(** ** Data read from and written to the remote store *)

(** The signed-in user object handed over by the auth service, with the
    properties the class reads. [displayName] and [photoURL] may be null. *)
Module User.
Record t := mk {
  uid : string;
  email : string;
  displayName : option string;
  photoURL : option string
}.
End User.

(** [doc.data()] of a document of the [messages] collection. [timestamp] is
    null while the server timestamp of a local write is pending; otherwise it
    is the time in milliseconds. [avatar] may be absent. *)
Module Message.
Record t := mk {
  text : string;
  userId : string;
  displayName : string;
  email : string;
  channel : string;
  timestamp : option Z;
  avatar : option string
}.
End Message.

(** [doc.data()] of a document of the [users] collection. *)
Module UserDoc.
Record t := mk {
  uid : string;
  email : string;
  displayName : string;
  avatar : option string
}.
End UserDoc.

(** The two renderings of a time of day the class asks the browser for:
    [toLocaleTimeString()] and
    [toLocaleTimeString([], { hour: '2-digit', minute: '2-digit' })]. *)
Class Locale := {
  toLocaleTimeString : Z -> string;
  toLocaleTimeStringHM : Z -> string
}.

(** ** The page *)

(** An element created by the class: its tag, [className] and the markup
    assigned to [innerHTML]. *)
Record Element := mkElement {
  tagName : string;
  className : string;
  innerHTML : string
}.

(** The element that [container.innerHTML = '<div class="no-results">..</div>']
    leaves as the only child of [container]. *)
Definition noResults (message : string) : Element :=
  mkElement "div" "no-results" message.

Module ClassList.
Definition remove (c : string) (l : list string) : list string :=
  List.filter (fun x => negb (String.eqb x c)) l.
Definition add (c : string) (l : list string) : list string :=
  if existsb (String.eqb c) l then l else l ++ [c].
End ClassList.

Record ChannelItem := mkChannelItem {
  dataChannel : string;
  itemClasses : list string
}.

(** The parts of the page that only follow the signed-in state. *)
Record Chrome := mkChrome {
  displayNameElement : string;        (* textContent *)
  userRoleElement : string;           (* textContent *)
  statusDot : string;                 (* style.background *)
  userStatusElement : string;         (* textContent *)
  authToggleBtnText : string;         (* textContent *)
  authToggleBtnClasses : list string; (* classList *)
  logoutBtn : string;                 (* style.display *)
  messageInputDisabled : bool;
  messageInputPlaceholder : string;
  sendButtonDisabled : bool
}.

(** The elements cached by [cacheDOM], with the property of each that the
    class reads or writes; containers are given by their children. The
    scroll position of the message container is not modelled. *)
Record Page := mkPage {
  authModal : list string;            (* classList *)
  chrome : Chrome;
  messageInput : string;              (* value *)
  messagesContainer : list Element;
  channelItems : list ChannelItem;
  channelTitle : string;              (* #channel-title textContent *)
  channelDescription : string;        (* #channel-description textContent *)
  peopleList : list Element;
  searchModalInput : string;          (* value *)
  searchResults : list Element;
  alerts : list string                (* messages shown by alert(), oldest first *)
}.

(** ** The remote store *)

(** A query as the class builds it: a collection, one equality filter and
    an optional ascending sort field. *)
Record Query := mkQuery {
  collectionName : string;
  whereField : string;
  whereValue : string;
  orderByField : option string
}.

Definition messagesQuery (channelId : string) : Query :=
  mkQuery "messages" "channel" channelId (Some "timestamp").

Definition onlineUsersQuery : Query :=
  mkQuery "users" "status" "online" None.

Definition userByUidQuery (uid : string) : Query :=
  mkQuery "users" "uid" uid None.

(** Which of the two snapshot callbacks of the class a listener runs: the one
    passed in [loadMessages] or the one passed in [loadOnlineUsers]. *)
Inductive Callback := MessagesCallback | OnlineUsersCallback.

(** A registered snapshot listener. [handle] identifies the unsubscribe
    function that [onSnapshot] returned for it. *)
Record Listener := mkListener {
  handle : nat;
  query : Query;
  callback : Callback
}.

(** The calls the class makes on the store, in the order it makes them. *)
Inductive Call :=
| CallOnSnapshot (h : nat) (q : Query) (cb : Callback)
| CallUnsubscribe (h : nat)
| CallAddDoc (collection : string) (record : Message.t)
| CallGetDocs (q : Query).

(** The store as the class can affect it: the live listeners, the next fresh
    handle, and the log of calls. A listener stays live from [onSnapshot]
    until its unsubscribe function is called; the store invokes the callbacks
    of live listeners only. *)
Record Firestore := mkFirestore {
  listeners : list Listener;
  nextHandle : nat;
  calls : list Call
}.

Definition onSnapshot (q : Query) (cb : Callback) (db : Firestore) : nat * Firestore :=
  let h := nextHandle db in
  (h, mkFirestore (listeners db ++ [mkListener h q cb]) (S h)
                  (calls db ++ [CallOnSnapshot h q cb])).

(** The listeners other than the one registered under [h]. *)
Definition removeHandle (h : nat) (ls : list Listener) : list Listener :=
  List.filter (fun l => negb (handle l =? h)%nat) ls.

(** Calling the unsubscribe function with handle [h] (a second call finds
    nothing to remove). *)
Definition unsubscribe (h : nat) (db : Firestore) : Firestore :=
  mkFirestore (removeHandle h (listeners db))
              (nextHandle db)
              (calls db ++ [CallUnsubscribe h]).

Definition addDoc (collection : string) (record : Message.t) (db : Firestore) : Firestore :=
  mkFirestore (listeners db) (nextHandle db) (calls db ++ [CallAddDoc collection record]).

Definition getDocs (q : Query) (db : Firestore) : Firestore :=
  mkFirestore (listeners db) (nextHandle db) (calls db ++ [CallGetDocs q]).

Definition findListener (h : nat) (db : Firestore) : option Listener :=
  List.find (fun l => (handle l =? h)%nat) (listeners db).

(** ** The class *)

(** The fields set by the constructor. *)
Record AuthUI := mkAuthUI {
  currentUser : option User.t;
  currentChannel : string;
  messageListener : option nat;
  allMessages : list Message.t;
  onlineUsers : gset string;
  currentLang : string
}.

(** An instance of the class together with the page it is bound to and the
    store it talks to. *)
Record World := mkWorld {
  this : AuthUI;
  page : Page;
  db : Firestore
}.

(** *** Field updates *)

Definition set_currentUser (v : option User.t) (a : AuthUI) : AuthUI :=
  mkAuthUI v (currentChannel a) (messageListener a) (allMessages a) (onlineUsers a) (currentLang a).
Definition set_currentChannel (v : string) (a : AuthUI) : AuthUI :=
  mkAuthUI (currentUser a) v (messageListener a) (allMessages a) (onlineUsers a) (currentLang a).
Definition set_messageListener (v : option nat) (a : AuthUI) : AuthUI :=
  mkAuthUI (currentUser a) (currentChannel a) v (allMessages a) (onlineUsers a) (currentLang a).
Definition set_allMessages (v : list Message.t) (a : AuthUI) : AuthUI :=
  mkAuthUI (currentUser a) (currentChannel a) (messageListener a) v (onlineUsers a) (currentLang a).
Definition set_onlineUsers (v : gset string) (a : AuthUI) : AuthUI :=
  mkAuthUI (currentUser a) (currentChannel a) (messageListener a) (allMessages a) v (currentLang a).

Definition set_authModal (v : list string) (p : Page) : Page :=
  mkPage v (chrome p) (messageInput p) (messagesContainer p) (channelItems p)
         (channelTitle p) (channelDescription p) (peopleList p) (searchModalInput p)
         (searchResults p) (alerts p).
Definition set_chrome (v : Chrome) (p : Page) : Page :=
  mkPage (authModal p) v (messageInput p) (messagesContainer p) (channelItems p)
         (channelTitle p) (channelDescription p) (peopleList p) (searchModalInput p)
         (searchResults p) (alerts p).
Definition set_messageInput (v : string) (p : Page) : Page :=
  mkPage (authModal p) (chrome p) v (messagesContainer p) (channelItems p)
         (channelTitle p) (channelDescription p) (peopleList p) (searchModalInput p)
         (searchResults p) (alerts p).
Definition set_messagesContainer (v : list Element) (p : Page) : Page :=
  mkPage (authModal p) (chrome p) (messageInput p) v (channelItems p)
         (channelTitle p) (channelDescription p) (peopleList p) (searchModalInput p)
         (searchResults p) (alerts p).
Definition set_channelHeader (items : list ChannelItem) (title description : string) (p : Page) : Page :=
  mkPage (authModal p) (chrome p) (messageInput p) (messagesContainer p) items
         title description (peopleList p) (searchModalInput p)
         (searchResults p) (alerts p).
Definition set_peopleList (v : list Element) (p : Page) : Page :=
  mkPage (authModal p) (chrome p) (messageInput p) (messagesContainer p) (channelItems p)
         (channelTitle p) (channelDescription p) v (searchModalInput p)
         (searchResults p) (alerts p).
Definition set_searchModalInput (v : string) (p : Page) : Page :=
  mkPage (authModal p) (chrome p) (messageInput p) (messagesContainer p) (channelItems p)
         (channelTitle p) (channelDescription p) (peopleList p) v
         (searchResults p) (alerts p).
Definition set_searchResults (v : list Element) (p : Page) : Page :=
  mkPage (authModal p) (chrome p) (messageInput p) (messagesContainer p) (channelItems p)
         (channelTitle p) (channelDescription p) (peopleList p) (searchModalInput p)
         v (alerts p).
Definition set_alerts (v : list string) (p : Page) : Page :=
  mkPage (authModal p) (chrome p) (messageInput p) (messagesContainer p) (channelItems p)
         (channelTitle p) (channelDescription p) (peopleList p) (searchModalInput p)
         (searchResults p) v.

Definition onThis (f : AuthUI -> AuthUI) (w : World) : World := mkWorld (f (this w)) (page w) (db w).
Definition onPage (f : Page -> Page) (w : World) : World := mkWorld (this w) (f (page w)) (db w).
Definition onDb (f : Firestore -> Firestore) (w : World) : World := mkWorld (this w) (page w) (f (db w)).

(** How a callback ends: normally, or by throwing (a [TypeError]) with the
    state as it was when the exception left the callback. *)
Inductive Completion (A : Type) :=
| Normal (a : A)
| Throw (a : A).
Arguments Normal {A} a.
Arguments Throw {A} a.

Definition settled {A} (c : Completion A) : A :=
  match c with Normal a => a | Throw a => a end.

(** *** Markup templates *)

(** A line break followed by [n] spaces, as in the template literals. *)
Fixpoint spaces (n : nat) : string :=
  match n with O => EmptyString | S k => String " "%char (spaces k) end.
Definition line (n : nat) : string := String "010"%char (spaces n).
Definition quoted (s : string) : string := dq +:+ s +:+ dq.

Definition escapeHtml (text : string) : string := serializeText text.

Section WithLocale.
Context {locale : Locale}.

Definition messageMarkup (message : Message.t) (timeText : string) : string :=
  line 12 +:+ "<div class=" +:+ quoted "message-avatar" +:+ ">" +:+
  line 16 +:+ "<img src=" +:+ quoted (orElse (Message.avatar message) "img/good.png") +:+
              " alt=" +:+ quoted (Message.displayName message) +:+ ">" +:+
  line 12 +:+ "</div>" +:+
  line 12 +:+ "<div class=" +:+ quoted "message-content" +:+ ">" +:+
  line 16 +:+ "<div class=" +:+ quoted "message-sender" +:+ ">" +:+ Message.displayName message +:+ "</div>" +:+
  line 16 +:+ "<div class=" +:+ quoted "message-text" +:+ ">" +:+ escapeHtml (Message.text message) +:+ "</div>" +:+
  line 16 +:+ "<div class=" +:+ quoted "message-time" +:+ ">" +:+ timeText +:+ "</div>" +:+
  line 12 +:+ "</div>" +:+
  line 8.

Definition personMarkup (user : UserDoc.t) : string :=
  line 24 +:+ "<div class=" +:+ quoted "person-avatar" +:+ ">" +:+
  line 28 +:+ "<img src=" +:+ quoted (orElse (UserDoc.avatar user) "img/good.png") +:+
              " alt=" +:+ quoted (UserDoc.displayName user) +:+ ">" +:+
  line 24 +:+ "</div>" +:+
  line 24 +:+ "<div class=" +:+ quoted "person-info" +:+ ">" +:+
  line 28 +:+ "<h4>" +:+ UserDoc.displayName user +:+ "</h4>" +:+
  line 28 +:+ "<p>" +:+ UserDoc.email user +:+ "</p>" +:+
  line 28 +:+ "<div class=" +:+ quoted "person-status" +:+ ">" +:+
  line 32 +:+ "<div class=" +:+ quoted "person-status-dot online" +:+ "></div>" +:+
  line 32 +:+ "<span>Online</span>" +:+
  line 28 +:+ "</div>" +:+
  line 24 +:+ "</div>" +:+
  line 20.

Definition searchResultMarkup (message : Message.t) : string :=
  line 20 +:+ "<div class=" +:+ quoted "search-result-sender" +:+ ">" +:+ Message.displayName message +:+ "</div>" +:+
  line 20 +:+ "<div class=" +:+ quoted "search-result-text" +:+ ">" +:+ Message.text message +:+ "</div>" +:+
  line 20 +:+ "<div class=" +:+ quoted "message-time" +:+ ">" +:+
      orElse (toLocaleTimeString <$> Message.timestamp message) "Unknown time" +:+ "</div>" +:+
  line 16.

(** *** Methods *)

Definition openAuthModal (w : World) : World :=
  onPage (fun p => set_authModal (ClassList.add "active" (authModal p)) p) w.

Definition closeAuthModal (w : World) : World :=
  onPage (fun p => set_authModal (ClassList.remove "active" (authModal p)) p) w.

Definition clearMessageListener (w : World) : World :=
  match messageListener (this w) with
  | Some h => onThis (set_messageListener None) (onDb (unsubscribe h) w)
  | None => w
  end.

Definition showChatInterface (user : User.t) (w : World) : World :=
  let w := closeAuthModal w in
  let c := chrome (page w) in
  let c' := mkChrome
    (orElse (User.displayName user) (splitHead "@" (User.email user)))
    "Active Member"
    "#28971e"
    "Online"
    "Profile"
    (ClassList.add "donate-btn" (ClassList.remove "login-btn" (authToggleBtnClasses c)))
    "block"
    false
    "Type your message here..."
    false in
  onPage (fun p => set_messagesContainer [] (set_chrome c' p)) w.

Definition showAuthInterface (w : World) : World :=
  let c := chrome (page w) in
  let c' := mkChrome
    "Guest User"
    "Join to chat"
    "#000000de"
    "Offline"
    "Login"
    (ClassList.add "login-btn" (ClassList.remove "donate-btn" (authToggleBtnClasses c)))
    "none"
    true
    "Sign in to send messages..."
    true in
  onPage (fun p => set_messagesContainer
                     [noResults "Sign in to join the conversation!"]
                     (set_chrome c' p)) w.

(** The synchronous part of [updateUserStatus]: the query it sends. What
    follows the [await] only writes to the console. *)
Definition updateUserStatus (status : string) (w : World) : World :=
  match currentUser (this w) with
  | None => w
  | Some user => onDb (getDocs (userByUidQuery (User.uid user))) w
  end.

(** The element [displayMessage] builds for [message] when the signed-in
    user is [me]. *)
Definition messageDiv (me : option User.t) (message : Message.t) : Element :=
  let isCurrentUser :=
    match me with
    | Some user => String.eqb (Message.userId message) (User.uid user)
    | None => false
    end in
  let timeText :=
    match Message.timestamp message with
    | Some t => toLocaleTimeStringHM t
    | None => "Just now"
    end in
  mkElement "div"
            ("message " +:+ (if isCurrentUser then "sent" else "received"))
            (messageMarkup message timeText).

Definition displayMessage (message : Message.t) (w : World) : World :=
  let messageDiv := messageDiv (currentUser (this w)) message in
  onPage (fun p => set_messagesContainer (messagesContainer p ++ [messageDiv]) p) w.

(** The callback passed to [onSnapshot] in [loadMessages], applied to the
    documents of a query snapshot in the snapshot's order. *)
Definition onMessagesSnapshot (querySnapshot : list Message.t) (w : World) : World :=
  let w := onPage (set_messagesContainer []) w in
  let w := onThis (set_allMessages []) w in
  match querySnapshot with
  | [] => onPage (set_messagesContainer
                    [noResults "No messages yet. Start the conversation!"]) w
  | _ =>
      fold_left
        (fun w message =>
           let w := displayMessage message w in
           onThis (fun a => set_allMessages (allMessages a ++ [message]) a) w)
        querySnapshot w
  end.

Definition loadMessages (w : World) : World :=
  match currentUser (this w) with
  | None => w
  | Some _ =>
      let w := clearMessageListener w in
      let q := messagesQuery (currentChannel (this w)) in
      let (h, db') := onSnapshot q MessagesCallback (db w) in
      onThis (set_messageListener (Some h)) (onDb (fun _ => db') w)
  end.

Definition personItem (user : UserDoc.t) : Element :=
  mkElement "li" "person-item" (personMarkup user).

(** The [forEach] of the callback in [loadOnlineUsers]. Reading
    [this.currentUser.uid] throws when [currentUser] is null. *)
Fixpoint forEachOnlineUser (docs : list UserDoc.t) (w : World) : Completion World :=
  match docs with
  | [] => Normal w
  | user :: rest =>
      match currentUser (this w) with
      | None => Throw w
      | Some me =>
          if negb (String.eqb (UserDoc.uid user) (User.uid me)) then
            let w := onThis (fun a => set_onlineUsers ({[UserDoc.uid user]} ∪ onlineUsers a) a) w in
            let w := onPage (fun p => set_peopleList (peopleList p ++ [personItem user]) p) w in
            forEachOnlineUser rest w
          else forEachOnlineUser rest w
      end
  end.

(** The callback passed to [onSnapshot] in [loadOnlineUsers]. *)
Definition onOnlineUsersSnapshot (querySnapshot : list UserDoc.t) (w : World) : Completion World :=
  let w := onPage (set_peopleList []) w in
  let w := onThis (set_onlineUsers ∅) w in
  match querySnapshot with
  | [] => Normal (onPage (set_peopleList [noResults "No users online"]) w)
  | _ => forEachOnlineUser querySnapshot w
  end.

(** The unsubscribe function returned by [onSnapshot] is dropped here. *)
Definition loadOnlineUsers (w : World) : World :=
  match currentUser (this w) with
  | None => w
  | Some _ =>
      let (_, db') := onSnapshot onlineUsersQuery OnlineUsersCallback (db w) in
      onDb (fun _ => db') w
  end.

(** The record [sendMessage] writes. Its [timestamp] is the [serverTimestamp()]
    placeholder, which reads back as null until the server has set it. *)
Definition newMessage (user : User.t) (messageText channelId : string) : Message.t :=
  Message.mk
    messageText
    (User.uid user)
    (orElse (User.displayName user) (splitHead "@" (User.email user)))
    (User.email user)
    channelId
    None
    (Some (orElse (User.photoURL user)
                  ("https://ui-avatars.com/api/?name=" +:+
                   encodeURIComponent (orElse (User.displayName user) (User.email user)) +:+
                   "&background=ec4899&color=fff"))).

(** [sendMessage] up to its [await]: the guard and the write. *)
Definition sendMessage (w : World) : World :=
  match currentUser (this w) with
  | None => w
  | Some user =>
      if isEmpty (trim (messageInput (page w))) then w
      else
        let messageText := trim (messageInput (page w)) in
        onDb (addDoc "messages" (newMessage user messageText (currentChannel (this w)))) w
  end.

(** [sendMessage] after its [await]: the write succeeded ([ok]) or was
    rejected. *)
Definition sendMessageSettled (ok : bool) (w : World) : World :=
  if ok then onPage (set_messageInput EmptyString) w
  else onPage (fun p => set_alerts (alerts p ++ ["Failed to send message. Please try again."]) p) w.

Definition channelDescriptions : list (string * string) :=
  [ ("ideas", "Share and discuss business ideas with the community");
    ("support", "Get answers to your questions and help others");
    ("partnerships", "Find collaborators and business partners");
    ("growth", "Discuss strategies for scaling your business");
    ("resources", "Share and discover helpful student resources") ].

(** [channelDescriptions[channelId] || 'Chat channel']. Channel ids that name
    a property of [Object.prototype] (none of the page's five does) are not
    modelled. *)
Definition describeChannel (channelId : string) : string :=
  match List.find (fun kv => String.eqb (fst kv) channelId) channelDescriptions with
  | Some kv => snd kv
  | None => "Chat channel"
  end.

(** The channel items after [active] has been removed from all of them and
    added to the [k]-th. *)
Definition markActive (k : nat) (items : list ChannelItem) : list ChannelItem :=
  imap (fun i item =>
          let cleared := ClassList.remove "active" (itemClasses item) in
          mkChannelItem (dataChannel item)
                        (if (i =? k)%nat then ClassList.add "active" cleared else cleared))
       items.

(** [switchChannel(channelItem)] for the [k]-th element of [channelItems]
    (the click handlers are bound to those elements only). *)
Definition switchChannel (k : nat) (w : World) : World :=
  match channelItems (page w) !! k with
  | None => w
  | Some channelItem =>
      match currentUser (this w) with
      | None => openAuthModal w
      | Some _ =>
          let items := markActive k (channelItems (page w)) in
          let channelId := dataChannel channelItem in
          let w := onThis (set_currentChannel channelId) w in
          let w := onPage (set_channelHeader items ("#" +:+ channelId) (describeChannel channelId)) w in
          loadMessages w
      end
  end.

Definition searchResultItem (message : Message.t) : Element :=
  mkElement "div" "search-result-item" (searchResultMarkup message).

Definition filteredMessages (searchTerm : string) (allMessages : list Message.t) : list Message.t :=
  List.filter
    (fun message =>
       includes (toLowerCase (Message.text message)) searchTerm ||
       includes (toLowerCase (Message.displayName message)) searchTerm)
    allMessages.

Definition handleSearch (w : World) : World :=
  let searchTerm := trim (toLowerCase (searchModalInput (page w))) in
  if isEmpty searchTerm then
    onPage (set_searchResults [noResults "Enter a search term to find messages"]) w
  else
    let filteredMessages := filteredMessages searchTerm (allMessages (this w)) in
    match filteredMessages with
    | [] => onPage (set_searchResults [noResults "No messages found matching your search"]) w
    | _ =>
        fold_left
          (fun w message =>
             onPage (fun p => set_searchResults (searchResults p ++ [searchResultItem message]) p) w)
          filteredMessages
          (onPage (set_searchResults []) w)
    end.

(** The callback passed to [onAuthStateChanged] in [initAuthListener]. *)
Definition authStateChanged (user : option User.t) (w : World) : World :=
  match user with
  | Some u =>
      let w := onThis (set_currentUser (Some u)) w in
      let w := showChatInterface u w in
      let w := loadMessages w in
      let w := loadOnlineUsers w in
      updateUserStatus "online" w
  | None =>
      let w := onThis (set_currentUser None) w in
      let w := showAuthInterface w in
      clearMessageListener w
  end.

(** [new AuthUI()] on a freshly loaded page, with no listener registered yet. *)
Definition newAuthUI (document : Page) : World :=
  mkWorld (mkAuthUI None "ideas" None [] ∅ "en") document (mkFirestore [] 0 []).

(** *** Events *)

(** What can happen to a running instance: the auth service reports a user or
    none, the auth modal is closed (by a click outside it or a successful
    login), the user clicks a channel, types, sends or searches, a pending
    write settles, and the store delivers a snapshot to a listener. *)
Inductive Event :=
| AuthStateChanged (user : option User.t)
| AuthModalDismissed
| ChannelClicked (k : nat)
| MessageTyped (value : string)
| SendClicked
| AddDocSettled (ok : bool)
| SearchTyped (value : string)
| MessagesSnapshot (h : nat) (docs : list Message.t)
| OnlineUsersSnapshot (h : nat) (docs : list UserDoc.t).

(** The store calls back live listeners only: a snapshot for a handle that is
    not (or no longer) registered reaches no callback. *)
Definition deliverMessages (h : nat) (docs : list Message.t) (w : World) : World :=
  match findListener h (db w) with
  | Some l =>
      match callback l with
      | MessagesCallback => onMessagesSnapshot docs w
      | OnlineUsersCallback => w
      end
  | None => w
  end.

Definition deliverOnlineUsers (h : nat) (docs : list UserDoc.t) (w : World) : Completion World :=
  match findListener h (db w) with
  | Some l =>
      match callback l with
      | OnlineUsersCallback => onOnlineUsersSnapshot docs w
      | MessagesCallback => Normal w
      end
  | None => Normal w
  end.

Definition step (e : Event) (w : World) : World :=
  match e with
  | AuthStateChanged user => authStateChanged user w
  | AuthModalDismissed => closeAuthModal w
  | ChannelClicked k => switchChannel k w
  | MessageTyped value => onPage (set_messageInput value) w
  | SendClicked => sendMessage w
  | AddDocSettled ok => sendMessageSettled ok w
  | SearchTyped value => handleSearch (onPage (set_searchModalInput value) w)
  | MessagesSnapshot h docs => deliverMessages h docs w
  | OnlineUsersSnapshot h docs => settled (deliverOnlineUsers h docs w)
  end.

Definition run (events : list Event) (w : World) : World :=
  fold_left (fun w e => step e w) events w.

End WithLocale.

(** ** The sign-in and registration forms *)

(** The four notice elements of the forms ([login-error], [login-success],
    [register-error], [register-success]) and the two loading indicators. *)
Inductive NoticeId := LoginError | LoginSuccess | RegisterError | RegisterSuccess.
Inductive LoadingId := LoginLoading | RegisterLoading.

(** A notice element: its [textContent] and [style.display]. *)
Record Notice := mkNotice {
  noticeText : string;
  noticeDisplay : string
}.

(** The document [createUserDocument] writes to the [users] collection; its
    [createdAt] and [lastSeen] are [serverTimestamp()] placeholders. *)
Record UserRecord := mkUserRecord {
  recordUid : string;
  recordEmail : string;
  recordDisplayName : string;
  recordStatus : string;
  recordAvatar : string
}.

(** The calls the forms make on the auth service and, for the user document,
    on the store, in the order they are made. *)
Inductive AuthCall :=
| CallSignIn (email password : string)
| CallCreateUser (email password : string)
| CallUpdateProfile (uid displayName : string)
| CallAddUserDoc (record : UserRecord)
| CallSignOut.

(** The state of the forms: the notices, the class lists of the loading
    indicators, the pending timers of [showMessage] (oldest first; all run
    for the same 5000 ms, so they fire in this order) and the calls made. *)
Record AuthForms := mkAuthForms {
  loginError : Notice;
  loginSuccess : Notice;
  registerError : Notice;
  registerSuccess : Notice;
  loginLoading : list string;
  registerLoading : list string;
  timers : list NoticeId;
  authCalls : list AuthCall
}.

Definition notice (n : NoticeId) (f : AuthForms) : Notice :=
  match n with
  | LoginError => loginError f
  | LoginSuccess => loginSuccess f
  | RegisterError => registerError f
  | RegisterSuccess => registerSuccess f
  end.

Definition set_notice (n : NoticeId) (v : Notice) (f : AuthForms) : AuthForms :=
  match n with
  | LoginError =>
      mkAuthForms v (loginSuccess f) (registerError f) (registerSuccess f)
                  (loginLoading f) (registerLoading f) (timers f) (authCalls f)
  | LoginSuccess =>
      mkAuthForms (loginError f) v (registerError f) (registerSuccess f)
                  (loginLoading f) (registerLoading f) (timers f) (authCalls f)
  | RegisterError =>
      mkAuthForms (loginError f) (loginSuccess f) v (registerSuccess f)
                  (loginLoading f) (registerLoading f) (timers f) (authCalls f)
  | RegisterSuccess =>
      mkAuthForms (loginError f) (loginSuccess f) (registerError f) v
                  (loginLoading f) (registerLoading f) (timers f) (authCalls f)
  end.

Definition loadingClasses (l : LoadingId) (f : AuthForms) : list string :=
  match l with
  | LoginLoading => loginLoading f
  | RegisterLoading => registerLoading f
  end.

Definition set_loadingClasses (l : LoadingId) (v : list string) (f : AuthForms) : AuthForms :=
  match l with
  | LoginLoading =>
      mkAuthForms (loginError f) (loginSuccess f) (registerError f) (registerSuccess f)
                  v (registerLoading f) (timers f) (authCalls f)
  | RegisterLoading =>
      mkAuthForms (loginError f) (loginSuccess f) (registerError f) (registerSuccess f)
                  (loginLoading f) v (timers f) (authCalls f)
  end.

Definition set_timers (v : list NoticeId) (f : AuthForms) : AuthForms :=
  mkAuthForms (loginError f) (loginSuccess f) (registerError f) (registerSuccess f)
              (loginLoading f) (registerLoading f) v (authCalls f).

Definition authCall (c : AuthCall) (f : AuthForms) : AuthForms :=
  mkAuthForms (loginError f) (loginSuccess f) (registerError f) (registerSuccess f)
              (loginLoading f) (registerLoading f) (timers f) (authCalls f ++ [c]).

(** [showMessage(element, message)]: the notice is shown and a timer is
    started that hides the element. *)
Definition showMessage (element : NoticeId) (message : string) (f : AuthForms) : AuthForms :=
  let f := set_notice element (mkNotice message "block") f in
  set_timers (timers f ++ [element]) f.

(** The oldest pending timer of [showMessage] fires. *)
Definition timerFired (f : AuthForms) : AuthForms :=
  match timers f with
  | [] => f
  | element :: rest =>
      set_timers rest (set_notice element (mkNotice (noticeText (notice element f)) "none") f)
  end.

Definition showLoading (element : LoadingId) (isLoading : bool) (f : AuthForms) : AuthForms :=
  if isLoading
  then set_loadingClasses element (ClassList.add "active" (loadingClasses element f)) f
  else set_loadingClasses element (ClassList.remove "active" (loadingClasses element f)) f.

Definition errorMessages : list (string * string) :=
  [ ("auth/email-already-in-use", "This email is already registered");
    ("auth/invalid-email", "Invalid email address");
    ("auth/operation-not-allowed", "Email/password login is not enabled");
    ("auth/weak-password", "Password is too weak");
    ("auth/user-disabled", "This account has been disabled");
    ("auth/user-not-found", "No account found with this email");
    ("auth/wrong-password", "Incorrect password");
    ("auth/too-many-requests", "Too many attempts. Try again later");
    ("auth/network-request-failed", "Network error. Please check your connection") ].

(** [getErrorMessage(error.code)], where the code of an error that carries
    none is [None]. Codes that name a property of [Object.prototype] (none of
    the auth service's codes does) are not modelled. *)
Definition getErrorMessage (errorCode : option string) : string :=
  match errorCode with
  | Some code =>
      match List.find (fun kv => String.eqb (fst kv) code) errorMessages with
      | Some kv => snd kv
      | None => "An error occurred. Please try again."
      end
  | None => "An error occurred. Please try again."
  end.

(** The class instance together with its forms. *)
Record Client := mkClient {
  world : World;
  forms : AuthForms
}.

Definition onForms (g : AuthForms -> AuthForms) (c : Client) : Client :=
  mkClient (world c) (g (forms c)).
Definition onWorld (g : World -> World) (c : Client) : Client :=
  mkClient (g (world c)) (forms c).

(** [handleLogin] up to its [await], for the values of the two fields. *)
Definition handleLogin (email password : string) (c : Client) : Client :=
  if isEmpty email || isEmpty password then
    onForms (showMessage LoginError "Please fill in all fields") c
  else
    let c := onForms (showLoading LoginLoading true) c in
    onForms (authCall (CallSignIn email password)) c.

(** [handleLogin] after its [await], when the sign-in succeeded. *)
Definition loginSucceeded (c : Client) : Client :=
  let c := onForms (showMessage LoginSuccess "Login successful!") c in
  let c := onWorld closeAuthModal c in
  onForms (showLoading LoginLoading false) c.

(** [handleLogin] after its [await], when the sign-in was rejected. *)
Definition loginFailed (errorCode : option string) (c : Client) : Client :=
  let c := onForms (showMessage LoginError (getErrorMessage errorCode)) c in
  onForms (showLoading LoginLoading false) c.

(** [handleRegister] up to its first [await], for the values of the four
    fields. *)
Definition handleRegister (name email password confirmPassword : string) (c : Client) : Client :=
  if isEmpty name || isEmpty email || isEmpty password || isEmpty confirmPassword then
    onForms (showMessage RegisterError "Please fill in all fields") c
  else if (String.length password <? 6)%nat then
    onForms (showMessage RegisterError "Password must be at least 6 characters") c
  else if negb (String.eqb password confirmPassword) then
    onForms (showMessage RegisterError "Passwords do not match") c
  else
    let c := onForms (showLoading RegisterLoading true) c in
    onForms (authCall (CallCreateUser email password)) c.

(** [handleRegister] between its first and second [await]: the account
    exists, the profile update is requested. *)
Definition registerUserCreated (name : string) (user : User.t) (c : Client) : Client :=
  onForms (authCall (CallUpdateProfile (User.uid user) name)) c.

Definition userRecord (user : User.t) : UserRecord :=
  mkUserRecord
    (User.uid user)
    (User.email user)
    (orElse (User.displayName user) (splitHead "@" (User.email user)))
    "online"
    ("https://ui-avatars.com/api/?name=" +:+
     encodeURIComponent (orElse (User.displayName user) (User.email user)) +:+
     "&background=ec4899&color=fff").

(** [createUserDocument(user)] up to its [await]; a failure of the write is
    caught there and only logged. *)
Definition createUserDocument (user : User.t) (c : Client) : Client :=
  onForms (authCall (CallAddUserDoc (userRecord user))) c.

(** [handleRegister] after [createUserDocument] has returned. *)
Definition registerCompleted (c : Client) : Client :=
  let c := onForms (showMessage RegisterSuccess "Account created successfully!") c in
  let c := onWorld closeAuthModal c in
  onForms (showLoading RegisterLoading false) c.

(** [handleRegister] when the account creation or the profile update was
    rejected. *)
Definition registerFailed (errorCode : option string) (c : Client) : Client :=
  let c := onForms (showMessage RegisterError (getErrorMessage errorCode)) c in
  onForms (showLoading RegisterLoading false) c.

(** [handleLogout] up to its [await]. *)
Definition handleLogout (c : Client) : Client :=
  onForms (authCall CallSignOut) c.

(** ** Properties stated about the class *)

Definition isMessagesListener (l : Listener) : bool :=
  match callback l with MessagesCallback => true | OnlineUsersCallback => false end.

Definition isOnlineUsersListener (l : Listener) : bool :=
  match callback l with OnlineUsersCallback => true | MessagesCallback => false end.

(** The live listeners of each kind. *)
Definition messageListeners (w : World) : list Listener :=
  List.filter isMessagesListener (listeners (db w)).

Definition onlineUsersListeners (w : World) : list Listener :=
  List.filter isOnlineUsersListener (listeners (db w)).

(** Handles are distinct and below the next fresh one [n]. *)
Definition HandlesOk (n : nat) (ls : list Listener) : Prop :=
  Forall (fun l => handle l < n) ls /\ NoDup (map handle ls).

(** What every state of a running instance satisfies: the handles of the
    store are in order; the live message listeners are exactly the one
    recorded in [messageListener], listening on the current channel; and a
    message listener is recorded exactly while a user is signed in. *)
Record Consistent (w : World) : Prop := mkConsistent {
  handles_ok : HandlesOk (nextHandle (db w)) (listeners (db w));
  message_listener_tracked :
    messageListeners w =
    match messageListener (this w) with
    | Some h => [mkListener h (messagesQuery (currentChannel (this w))) MessagesCallback]
    | None => []
    end;
  listener_iff_signed_in :
    is_Some (messageListener (this w)) <-> is_Some (currentUser (this w))
}.

(** The part of [Consistent] that holds in the middle of a handler too, with
    the channel [c] the live message listener was opened for. *)
Definition TrackedAs (c : string) (w : World) : Prop :=
  HandlesOk (nextHandle (db w)) (listeners (db w)) /\
  messageListeners w =
    match messageListener (this w) with
    | Some h => [mkListener h (messagesQuery c) MessagesCallback]
    | None => []
    end.

(** [w'] differs from [w] in nothing the invariant looks at. *)
Definition sameCore (w w' : World) : Prop :=
  currentUser (this w') = currentUser (this w) /\
  currentChannel (this w') = currentChannel (this w) /\
  messageListener (this w') = messageListener (this w) /\
  listeners (db w') = listeners (db w) /\
  nextHandle (db w') = nextHandle (db w).


(** The three outcomes of a search. *)
Inductive SearchView :=
| EnterTerm
| NoResults
| Results (messages : list Message.t).

Fixpoint whitespaceOnly (s : string) : bool :=
  match s with
  | EmptyString => true
  | String c s' => isWhiteSpace c && whitespaceOnly s'
  end.

(** [needle] occurs in [hay] when letter case is ignored. *)
Definition containsIgnoringCase (hay needle : string) : bool :=
  includes (toLowerCase hay) (toLowerCase needle).

Definition matchesTerm (term : string) (message : Message.t) : bool :=
  containsIgnoringCase (Message.text message) term ||
  containsIgnoringCase (Message.displayName message) term.

(** The search as the specification words it: the term itself is matched. *)
Definition searchAsSpecified (term : string) (log : list Message.t) : SearchView :=
  if whitespaceOnly term then EnterTerm
  else match List.filter (matchesTerm term) log with
       | [] => NoResults
       | found => Results found
       end.

(** The same with the term trimmed before it is matched. *)
Definition searchTrimmed (term : string) (log : list Message.t) : SearchView :=
  if whitespaceOnly term then EnterTerm
  else match List.filter (matchesTerm (trim term)) log with
       | [] => NoResults
       | found => Results found
       end.

Section Properties.
Context {locale : Locale}.

(** The states a running instance can be in: those reached from a fresh
    instance by some sequence of events. *)
Definition Reachable (w : World) : Prop :=
  exists document events, w = run events (newAuthUI document).

Definition renderSearchView (v : SearchView) : list Element :=
  match v with
  | EnterTerm => [noResults "Enter a search term to find messages"]
  | NoResults => [noResults "No messages found matching your search"]
  | Results messages => map searchResultItem messages
  end.

(** The children of the message container that show the log [l] to the
    signed-in user [me]. *)
Definition renderLog (me : option User.t) (l : list Message.t) : list Element :=
  match l with
  | [] => [noResults "No messages yet. Start the conversation!"]
  | _ => map (messageDiv me) l
  end.

(** The children of the people list after a presence snapshot [docs] seen by
    the user with id [me]. *)
Definition othersOnline (me : string) (docs : list UserDoc.t) : list UserDoc.t :=
  List.filter (fun user => negb (String.eqb (UserDoc.uid user) me)) docs.

Definition renderPeople (me : string) (docs : list UserDoc.t) : list Element :=
  match docs with
  | [] => [noResults "No users online"]
  | _ => map personItem (othersOnline me docs)
  end.

(** Sign-out as the specification words it: no listener stays live and both
    read models are empty afterwards. *)
Definition SignOutClearsEverything (w : World) : Prop :=
  let w' := authStateChanged None w in
  listeners (db w') = [] /\
  allMessages (this w') = [] /\
  onlineUsers (this w') = ∅.

(** A channel switch as the specification words it: the old listener is
    cancelled, the log is emptied, the new listener is opened; the presence
    listeners stay; and a snapshot for the old listener changes nothing
    afterwards. *)
Definition SwitchResetsLog (k : nat) (w : World) : Prop :=
  let w' := switchChannel k w in
  exists h item,
    messageListener (this w) = Some h /\
    channelItems (page w) !! k = Some item /\
    calls (db w') =
      calls (db w) ++
      [CallUnsubscribe h;
       CallOnSnapshot (nextHandle (db w)) (messagesQuery (dataChannel item)) MessagesCallback] /\
    allMessages (this w') = [] /\
    onlineUsersListeners w' = onlineUsersListeners w /\
    forall docs, deliverMessages h docs w' = w'.

End Properties.

(** ** Further notions used in the theorems *)

(** Every character of [s] satisfies [p]. *)
Fixpoint allChars (p : ascii -> bool) (s : string) : bool :=
  match s with
  | EmptyString => true
  | String c s' => p c && allChars p s'
  end.

Definition isAngleBracket (c : ascii) : bool :=
  (code c =? 60)%nat || (code c =? 62)%nat.

(** Reading the four character references of [escapeHtml] back. *)
Fixpoint unescapeText (s : string) : string :=
  match s with
  | EmptyString => EmptyString
  | String "&" (String "a" (String "m" (String "p" (String ";" rest)))) =>
      String "&" (unescapeText rest)
  | String "&" (String "l" (String "t" (String ";" rest))) =>
      String "<" (unescapeText rest)
  | String "&" (String "g" (String "t" (String ";" rest))) =>
      String ">" (unescapeText rest)
  | String "&" (String "n" (String "b" (String "s" (String "p" (String ";" rest))))) =>
      String (ascii_of_nat 160) (unescapeText rest)
  | String c rest => String c (unescapeText rest)
  end.

(** A string that does not begin with white space. *)
Definition startsClean (s : string) : bool :=
  match s with
  | EmptyString => true
  | String c _ => negb (isWhiteSpace c)
  end.

Section FurtherNotions.
Context {locale : Locale}.

Definition isSignIn (e : Event) : bool :=
  match e with
  | AuthStateChanged (Some _) => true
  | _ => false
  end.

(** How often the auth service has reported a signed-in user. *)
Definition signIns (events : list Event) : nat :=
  List.length (List.filter isSignIn events).

End FurtherNotions.

(** The records of the writes to the store among [cs]. *)
Definition writtenRecords (cs : list Call) : list (string * Message.t) :=
  flat_map (fun c => match c with CallAddDoc coll r => [(coll, r)] | _ => [] end) cs.

(** What a record written by [sendMessage] looks like. *)
Definition wellFormedWrite (cr : string * Message.t) : Prop :=
  fst cr = "messages" /\
  Message.text (snd cr) <> EmptyString /\
  trim (Message.text (snd cr)) = Message.text (snd cr) /\
  Message.timestamp (snd cr) = None.

(** The handles that have been unsubscribed among the calls [cs], in the
    order of the calls. *)
Definition unsubscribedHandles (cs : list Call) : list nat :=
  flat_map (fun c => match c with CallUnsubscribe h => [h] | _ => [] end) cs.

(** How the log of calls and the live listeners of the store hang together:
    no handle was unsubscribed twice; an unsubscribed handle is not live, was
    handed out before and belonged to a message listener; and every live
    listener was registered by a call in the log. *)
Record StoreLog (d : Firestore) : Prop := mkStoreLog {
  cancelled_once : List.NoDup (unsubscribedHandles (calls d));
  cancelled_not_live :
    forall h, In h (unsubscribedHandles (calls d)) -> ~ In h (map handle (listeners d));
  cancelled_bounded :
    forall h, In h (unsubscribedHandles (calls d)) -> h < nextHandle d;
  live_registered :
    forall l, In l (listeners d) ->
              In (CallOnSnapshot (handle l) (query l) (callback l)) (calls d);
  cancelled_registered :
    forall h, In h (unsubscribedHandles (calls d)) ->
              exists q, In (CallOnSnapshot h q MessagesCallback) (calls d)
}.

(** ** Sample data *)

Definition fixedClock : Locale :=
  {| toLocaleTimeString := fun _ => "10:15:00 AM";
     toLocaleTimeStringHM := fun _ => "10:15 AM" |}.

Definition alice : User.t := User.mk "u1" "alice@example.org" (Some "Alice") None.

Definition aliceDoc : UserDoc.t := UserDoc.mk "u1" "alice@example.org" "Alice" None.
Definition bobDoc : UserDoc.t := UserDoc.mk "u2" "bob@example.org" "Bob" None.
Definition carolDoc : UserDoc.t := UserDoc.mk "u3" "carol@example.org" "Carol" None.

Definition samplePage : Page :=
  mkPage []
         (mkChrome "Guest User" "Join to chat" "#000000de" "Offline" "Login" ["login-btn"]
                   "none" true "Sign in to send messages..." true)
         EmptyString
         []
         [mkChannelItem "ideas" ["channel-item"; "active"];
          mkChannelItem "support" ["channel-item"]]
         "#ideas"
         "Share and discuss business ideas with the community"
         []
         EmptyString
         []
         [].

Definition early : Message.t :=
  Message.mk "banana" "u1" "Alice" "alice@example.org" "ideas" (Some 1%Z) None.
Definition late : Message.t :=
  Message.mk "<b>Hi</b>" "u2" "Bob" "bob@example.org" "ideas" (Some 2%Z) None.

(** Alice has signed in on the sample page. *)
Definition signedIn : World :=
  run (locale := fixedClock) [AuthStateChanged (Some alice)] (newAuthUI samplePage).

(** Then a message snapshot and a presence snapshot have arrived. *)
Definition chatting : World :=
  run (locale := fixedClock)
      [AuthStateChanged (Some alice);
       MessagesSnapshot 0 [early; late];
       OnlineUsersSnapshot 1 [aliceDoc; bobDoc]]
      (newAuthUI samplePage).

(** Nobody has signed in yet. *)
Definition signedOut : World := newAuthUI samplePage.

(** Bob, as another signed-in user, and the forms before anything was
    entered. *)
Definition bob : User.t := User.mk "u2" "bob@example.org" None None.

Definition hidden : Notice := mkNotice EmptyString "none".

Definition sampleForms : AuthForms :=
  mkAuthForms hidden hidden hidden hidden ["loading"] ["loading"] [] [].

Definition sampleClient : Client := mkClient signedOut sampleForms.

(** Alice has typed a message, padded with spaces, and not sent it yet. *)
Definition typing : World :=
  step (locale := fixedClock) (MessageTyped "  hello there ") chatting.

(** And she has clicked send. *)
Definition sent : World := step (locale := fixedClock) SendClicked typing.

(** Alice has switched to the second channel. *)
Definition switched : World := step (locale := fixedClock) (ChannelClicked 1) chatting.

(** ** Proof tactics *)

Ltac unfold_updates :=
  unfold onThis, onPage, onDb,
    set_currentUser, set_currentChannel, set_messageListener, set_allMessages,
    set_onlineUsers, set_authModal, set_chrome, set_messageInput,
    set_messagesContainer, set_channelHeader, set_peopleList,
    set_searchModalInput, set_searchResults, set_alerts in *.

(** Splits a world into its fields and computes the field updates. *)
Ltac open_world w :=
  let a := fresh "a" in
  let p := fresh "p" in
  let d := fresh "d" in
  unfold_updates;
  destruct w as [a p d]; destruct a; destruct p; simpl in *.

(** * Theorems *)

(** ** Strings *)

Example trim_toLowerCase_sample : trim (toLowerCase "  Hello World  ") = "hello world".
Proof. reflexivity. Qed.

Example encodeURIComponent_sample :
  encodeURIComponent "a b@c.d" = "a%20b%40c.d" /\
  encodeURIComponent (String (ascii_of_nat 233) EmptyString) = "%C3%A9".
Proof. split; reflexivity. Qed.

Example escapeHtml_sample : escapeHtml "<b>Hi</b> & co" = "&lt;b&gt;Hi&lt;/b&gt; &amp; co".
Proof. reflexivity. Qed.

Example includes_sample :
  includes "banana" "nan" = true /\ includes "banana" "a " = false /\
  includes "x" EmptyString = true.
Proof. repeat split. Qed.

Example splitHead_sample : splitHead "@" "joe@example.org" = "joe".
Proof. reflexivity. Qed.

Lemma isWhiteSpace_lowerChar c : isWhiteSpace (lowerChar c) = isWhiteSpace c.
Proof. destruct c as [[] [] [] [] [] [] [] []]; reflexivity. Qed.

Lemma isEmpty_toLowerCase s : isEmpty (toLowerCase s) = isEmpty s.
Proof. destruct s; reflexivity. Qed.

Lemma toLowerCase_trimStart s : toLowerCase (trimStart s) = trimStart (toLowerCase s).
Proof.
  induction s as [|c s IH]; simpl; [reflexivity|].
  rewrite isWhiteSpace_lowerChar. destruct (isWhiteSpace c); [exact IH | reflexivity].
Qed.

Lemma toLowerCase_trimEnd s : toLowerCase (trimEnd s) = trimEnd (toLowerCase s).
Proof.
  induction s as [|c s IH]; simpl; [reflexivity|].
  rewrite isWhiteSpace_lowerChar, <- IH, isEmpty_toLowerCase.
  destruct (isWhiteSpace c && isEmpty (trimEnd s)); reflexivity.
Qed.

(** Trimming and lower-casing commute. *)
Lemma toLowerCase_trim s : toLowerCase (trim s) = trim (toLowerCase s).
Proof. unfold trim. rewrite toLowerCase_trimEnd, toLowerCase_trimStart. reflexivity. Qed.

Lemma isEmpty_trimEnd s : isEmpty (trimEnd s) = whitespaceOnly s.
Proof.
  induction s as [|c s IH]; simpl; [reflexivity|].
  rewrite <- IH. destruct (isWhiteSpace c), (isEmpty (trimEnd s)); reflexivity.
Qed.

Lemma whitespaceOnly_trimStart s : whitespaceOnly (trimStart s) = whitespaceOnly s.
Proof.
  induction s as [|c s IH]; simpl; [reflexivity|].
  destruct (isWhiteSpace c) eqn:E; simpl; [exact IH | rewrite E; reflexivity].
Qed.

(** A string trims to the empty string exactly when it is empty or consists
    of white space only. *)
Lemma isEmpty_trim s : isEmpty (trim s) = whitespaceOnly s.
Proof. unfold trim. rewrite isEmpty_trimEnd. apply whitespaceOnly_trimStart. Qed.

Lemma isEmpty_true s : isEmpty s = true <-> s = EmptyString.
Proof. destruct s; simpl; split; congruence. Qed.

Lemma append_assoc (a b c : string) : (a +:+ b) +:+ c = a +:+ (b +:+ c).
Proof.
  induction a as [|x a IH]; [reflexivity|].
  change (String x ((a +:+ b) +:+ c) = String x (a +:+ (b +:+ c))).
  f_equal. exact IH.
Qed.

(** The pieces of a right-nested concatenation that stand before [x]. *)
Ltac pieces_before x c :=
  lazymatch c with
  | ?p +:+ (x +:+ _) => constr:(p)
  | ?p +:+ ?rest => let b := pieces_before x rest in constr:(p +:+ b)
  end.

(** Splits the markup of the goal [exists before after, m = before +:+ x +:+ after]
    at the first place where [x] is inserted. *)
Ltac split_markup_at x :=
  lazymatch goal with
  | |- exists before after, ?m = _ =>
      let b := pieces_before x m in
      exists b; eexists; rewrite !append_assoc; reflexivity
  end.

(** ** Lists of listeners *)

Lemma filter_filter_comm {A} (f g : A -> bool) (l : list A) :
  List.filter f (List.filter g l) = List.filter g (List.filter f l).
Proof.
  induction l as [|x l IH]; simpl; [reflexivity|].
  destruct (f x) eqn:Ef, (g x) eqn:Eg; simpl; rewrite ?Ef, ?Eg, IH; reflexivity.
Qed.

Lemma filter_all {A} (f : A -> bool) (l : list A) :
  Forall (fun x => f x = true) l -> List.filter f l = l.
Proof.
  induction 1 as [|x l Hx _ IH]; simpl; [reflexivity|]. rewrite Hx, IH. reflexivity.
Qed.

Lemma find_none_iff {A} (f : A -> bool) (l : list A) :
  List.find f l = None <-> List.filter f l = [].
Proof.
  induction l as [|x l IH]; simpl; [tauto|].
  destruct (f x); [split; discriminate | exact IH].
Qed.


Section Snapshots.
Context {locale : Locale}.

(** ** Message snapshots *)

Lemma displayMessage_loop docs : forall w,
  fold_left
    (fun w message =>
       let w := displayMessage message w in
       onThis (fun a => set_allMessages (allMessages a ++ [message]) a) w)
    docs w
  = mkWorld
      (set_allMessages (allMessages (this w) ++ docs) (this w))
      (set_messagesContainer
         (messagesContainer (page w) ++ map (messageDiv (currentUser (this w))) docs)
         (page w))
      (db w).
Proof.
  induction docs as [|m docs IH]; intros w.
  - open_world w. rewrite !app_nil_r. reflexivity.
  - simpl fold_left. rewrite IH. open_world w.
    rewrite <- !app_assoc. reflexivity.
Qed.

(** The callback of [loadMessages] in closed form: the log becomes the
    snapshot, the container shows it, nothing else changes. *)
Lemma onMessagesSnapshot_eq docs w :
  onMessagesSnapshot docs w
  = mkWorld (set_allMessages docs (this w))
            (set_messagesContainer (renderLog (currentUser (this w)) docs) (page w))
            (db w).
Proof.
  unfold onMessagesSnapshot. destruct docs as [|m docs].
  - open_world w. reflexivity.
  - rewrite displayMessage_loop. open_world w. reflexivity.
Qed.

(** C4: after a snapshot is applied the log is exactly that snapshot, whatever
    the log held before; applying the same snapshot a second time changes
    nothing at all; and an empty snapshot after a non-empty one leaves the
    log empty. *)
Theorem log_is_latest_snapshot (w : World) (docs later : list Message.t) :
  allMessages (this (onMessagesSnapshot docs w)) = docs /\
  onMessagesSnapshot docs (onMessagesSnapshot docs w) = onMessagesSnapshot docs w /\
  allMessages (this (onMessagesSnapshot later (onMessagesSnapshot docs w))) = later /\
  allMessages (this (onMessagesSnapshot [] (onMessagesSnapshot docs w))) = [].
Proof.
  rewrite !onMessagesSnapshot_eq. open_world w. repeat split.
Qed.



End Snapshots.

Section Search.
Context {locale : Locale}.

(** ** Search *)

Lemma appendResults_loop found : forall w,
  fold_left
    (fun w message =>
       onPage (fun p => set_searchResults (searchResults p ++ [searchResultItem message]) p) w)
    found w
  = onPage (fun p => set_searchResults (searchResults p ++ map searchResultItem found) p) w.
Proof.
  induction found as [|m found IH]; intros w; simpl.
  - open_world w. rewrite app_nil_r. reflexivity.
  - rewrite IH. open_world w. rewrite <- app_assoc. reflexivity.
Qed.

(** What the filter of [handleSearch] keeps, in terms of the typed value. *)
Lemma filteredMessages_matchesTerm value log :
  filteredMessages (trim (toLowerCase value)) log = List.filter (matchesTerm (trim value)) log.
Proof.
  unfold filteredMessages. apply filter_ext. intros m.
  unfold matchesTerm, containsIgnoringCase. rewrite toLowerCase_trim. reflexivity.
Qed.

(** [handleSearch] in closed form: only the result list changes, and it shows
    the outcome of the search for the trimmed term. *)
Lemma handleSearch_eq w :
  handleSearch w
  = onPage (set_searchResults
              (renderSearchView
                 (searchTrimmed (searchModalInput (page w)) (allMessages (this w))))) w.
Proof.
  unfold handleSearch, searchTrimmed.
  rewrite <- toLowerCase_trim, isEmpty_toLowerCase, isEmpty_trim, toLowerCase_trim.
  destruct (whitespaceOnly (searchModalInput (page w))); [reflexivity|].
  rewrite filteredMessages_matchesTerm.
  destruct (List.filter _ _) as [|m found] eqn:E; [reflexivity|].
  rewrite appendResults_loop. open_world w. reflexivity.
Qed.

Lemma results_are_no_notice m found text :
  map searchResultItem (m :: found) <> [noResults text].
Proof. simpl. intros H. injection H as H _. discriminate H. Qed.

(** C7, amended: an empty or white-space-only term gives the notice asking
    for a term; any other term gives the messages of the log, in the order of
    the log, whose text or author name contains the trimmed term when letter
    case is ignored, or the notice that nothing was found when there are
    none. The three outcomes are shown differently. *)
Theorem search_by_trimmed_term (w : World) :
  searchResults (page (handleSearch w))
  = renderSearchView (searchTrimmed (searchModalInput (page w)) (allMessages (this w)))
  /\ renderSearchView EnterTerm <> renderSearchView NoResults
  /\ (forall m found,
        renderSearchView (Results (m :: found)) <> renderSearchView EnterTerm /\
        renderSearchView (Results (m :: found)) <> renderSearchView NoResults).
Proof.
  split; [|split].
  - rewrite handleSearch_eq. open_world w. reflexivity.
  - discriminate.
  - intros m found. split; apply results_are_no_notice.
Qed.

(** The search touches nothing but the result list. *)
Lemma handleSearch_frame w :
  this (handleSearch w) = this w /\ db (handleSearch w) = db w /\
  set_searchResults (searchResults (page w)) (page (handleSearch w)) = page w.
Proof. rewrite handleSearch_eq. open_world w. repeat split. Qed.

(** ** Escaping *)

(** The message list inserts the escaped text. *)
Lemma messageDiv_escapes me message :
  exists before after,
    innerHTML (messageDiv me message) = before +:+ escapeHtml (Message.text message) +:+ after.
Proof.
  unfold messageDiv, messageMarkup; simpl innerHTML.
  split_markup_at (escapeHtml (Message.text message)).
Qed.

(** The search results insert the text as it is. *)
Lemma searchResultItem_inserts_text message :
  exists before after,
    innerHTML (searchResultItem message) = before +:+ Message.text message +:+ after.
Proof.
  unfold searchResultItem, searchResultMarkup; simpl innerHTML.
  split_markup_at (Message.text message).
Qed.

End Search.

Section Presence.
Context {locale : Locale}.

(** ** Presence snapshots *)

Lemma forEachOnlineUser_signed_in me docs : forall w,
  currentUser (this w) = Some me ->
  forEachOnlineUser docs w
  = Normal
      (mkWorld
         (set_onlineUsers
            (list_to_set (map UserDoc.uid (othersOnline (User.uid me) docs))
               ∪ onlineUsers (this w))
            (this w))
         (set_peopleList
            (peopleList (page w) ++ map personItem (othersOnline (User.uid me) docs))
            (page w))
         (db w)).
Proof.
  induction docs as [|user docs IH]; intros w Hme.
  - open_world w. rewrite app_nil_r, (left_id_L ∅ (∪)). reflexivity.
  - simpl forEachOnlineUser. rewrite Hme. simpl othersOnline.
    destruct (negb (String.eqb (UserDoc.uid user) (User.uid me))).
    + rewrite IH by (open_world w; exact Hme).
      open_world w. rewrite <- app_assoc. do 3 f_equal.
      rewrite (assoc_L (∪)). f_equal. apply (comm_L (∪)).
    + apply IH, Hme.
Qed.

(** The callback of [loadOnlineUsers] while [me] is signed in, in closed
    form. *)
Lemma onOnlineUsersSnapshot_signed_in me docs w :
  currentUser (this w) = Some me ->
  onOnlineUsersSnapshot docs w
  = Normal
      (mkWorld
         (set_onlineUsers
            (list_to_set (map UserDoc.uid (othersOnline (User.uid me) docs)))
            (this w))
         (set_peopleList (renderPeople (User.uid me) docs) (page w))
         (db w)).
Proof.
  intros Hme. unfold onOnlineUsersSnapshot. destruct docs as [|user docs].
  - open_world w. reflexivity.
  - rewrite (forEachOnlineUser_signed_in me) by (open_world w; exact Hme).
    open_world w. rewrite (right_id_L ∅ (∪)). reflexivity.
Qed.

Lemma elem_of_othersOnline me (user : UserDoc.t) docs :
  user ∈ othersOnline me docs <-> user ∈ docs /\ UserDoc.uid user <> me.
Proof.
  unfold othersOnline. rewrite !list_elem_of_In, filter_In, negb_true_iff.
  rewrite String.eqb_neq. reflexivity.
Qed.

(** C8: while a user is signed in, a presence snapshot replaces the set of
    online users by the ids of the snapshot's entries other than the local
    user's, whatever the set held before: the local user is not in it, every
    other user of the snapshot is, and the people list shows those entries
    in the snapshot's order. *)
Theorem presence_is_snapshot_without_self (w : World) (me : User.t) (docs : list UserDoc.t) :
  currentUser (this w) = Some me ->
  exists w',
    onOnlineUsersSnapshot docs w = Normal w' /\
    onlineUsers (this w')
      = list_to_set (map UserDoc.uid (othersOnline (User.uid me) docs)) /\
    (User.uid me ∉ onlineUsers (this w')) /\
    (forall id, id ∈ onlineUsers (this w') <->
                exists user, user ∈ docs /\ UserDoc.uid user = id /\ id <> User.uid me) /\
    peopleList (page w') = renderPeople (User.uid me) docs.
Proof.
  intros Hme. eexists. split; [apply (onOnlineUsersSnapshot_signed_in me), Hme|].
  assert (Hin : forall id,
           id ∈ (list_to_set (map UserDoc.uid (othersOnline (User.uid me) docs)) : gset string)
           <-> exists user, user ∈ docs /\ UserDoc.uid user = id /\ id <> User.uid me).
  { intros id. rewrite elem_of_list_to_set, list_elem_of_fmap. split.
    - intros (user & -> & Huser). apply elem_of_othersOnline in Huser as [? ?]. eauto.
    - intros (user & Huser & <- & Hne). exists user. split; [reflexivity|].
      apply elem_of_othersOnline. auto. }
  open_world w. repeat split.
  - intros Hself. apply Hin in Hself as (? & _ & _ & Hne). apply Hne. reflexivity.
  - apply Hin.
  - apply Hin.
Qed.

End Presence.

Section Sending.
Context {locale : Locale}.

(** ** Sending and switching *)

(** C9: [sendMessage] leaves everything as it is, the store included, when
    nobody is signed in or the typed text trims to the empty string;
    otherwise its one effect is the write of a record to the messages
    collection whose text is the trimmed input and whose channel is the
    current channel. *)
Theorem sendMessage_writes_trimmed_text (w : World) :
  (currentUser (this w) = None \/ trim (messageInput (page w)) = EmptyString ->
   sendMessage w = w) /\
  (forall user,
     currentUser (this w) = Some user ->
     trim (messageInput (page w)) <> EmptyString ->
     exists record,
       sendMessage w = onDb (addDoc "messages" record) w /\
       Message.text record = trim (messageInput (page w)) /\
       Message.channel record = currentChannel (this w) /\
       Message.userId record = User.uid user).
Proof.
  unfold sendMessage. split.
  - intros [Hnone | Hempty].
    + rewrite Hnone. reflexivity.
    + rewrite Hempty. destruct (currentUser (this w)); reflexivity.
  - intros user Huser Htext. rewrite Huser.
    destruct (isEmpty (trim (messageInput (page w)))) eqn:E.
    + apply isEmpty_true in E. contradiction.
    + eexists. repeat split.
Qed.

(** C10: with nobody signed in, [switchChannel] changes neither a field of
    the instance (current channel, message listener, log, online users) nor
    the store; on the page it changes the class list of the auth modal
    only. *)
Theorem switchChannel_signed_out_changes_nothing (k : nat) (w : World) :
  currentUser (this w) = None ->
  this (switchChannel k w) = this w /\
  db (switchChannel k w) = db w /\
  set_authModal (authModal (page w)) (page (switchChannel k w)) = page w /\
  (is_Some (channelItems (page w) !! k) ->
   authModal (page (switchChannel k w)) = ClassList.add "active" (authModal (page w))).
Proof.
  intros Hnone. unfold switchChannel.
  destruct (channelItems (page w) !! k) as [item|] eqn:Hitem.
  - rewrite Hnone. unfold openAuthModal. clear Hitem. open_world w. repeat split.
  - open_world w. repeat split. intros [? ?]. discriminate.
Qed.

End Sending.

(** ** Listener bookkeeping *)

Lemma removeHandle_incl h ls l : In l (removeHandle h ls) -> In l ls.
Proof. unfold removeHandle. rewrite filter_In. tauto. Qed.

Lemma NoDup_map_filter {A B} (f : A -> B) (g : A -> bool) (l : list A) :
  NoDup (map f l) -> NoDup (map f (List.filter g l)).
Proof.
  induction l as [|x l IH]; simpl; [auto|].
  intros H. apply NoDup_cons in H as [Hx Hl]. destruct (g x); simpl; [|auto].
  apply NoDup_cons. split; [|auto].
  rewrite list_elem_of_In, in_map_iff in *. intros (y & E & Hy). apply Hx.
  exists y. apply filter_In in Hy. tauto.
Qed.

Lemma handlesOk_remove n h ls : HandlesOk n ls -> HandlesOk n (removeHandle h ls).
Proof.
  intros [Hlt Hnd]. split.
  - rewrite List.Forall_forall in *. intros l Hl. apply Hlt, (removeHandle_incl h), Hl.
  - apply NoDup_map_filter, Hnd.
Qed.

Lemma handlesOk_snoc n q cb ls :
  HandlesOk n ls -> HandlesOk (S n) (ls ++ [mkListener n q cb]).
Proof.
  intros [Hlt Hnd]. split.
  - apply Forall_app. split.
    + eapply Forall_impl; [exact Hlt|]. simpl. intros l Hl. lia.
    + repeat constructor.
  - rewrite map_app. simpl. apply NoDup_app. split; [exact Hnd|]. split.
    + intros x Hx Hn. apply list_elem_of_In in Hx, Hn.
      destruct Hn as [<-|[]]. apply in_map_iff in Hx as (l & E & Hl).
      rewrite List.Forall_forall in Hlt. specialize (Hlt l Hl). lia.
    + apply NoDup_singleton.
Qed.

Lemma handlesOk_in_lt n ls l : HandlesOk n ls -> In l ls -> handle l < n.
Proof. intros [Hlt _] Hl. rewrite List.Forall_forall in Hlt. auto. Qed.

(** Two live listeners with the same handle are the same listener. *)
Lemma handlesOk_same_handle n ls l1 l2 :
  HandlesOk n ls -> In l1 ls -> In l2 ls -> handle l1 = handle l2 -> l1 = l2.
Proof.
  intros [_ Hnd]. induction ls as [|x ls IH]; simpl; [tauto|].
  simpl in Hnd. apply NoDup_cons in Hnd as [Hx Hnd]. rewrite list_elem_of_In in Hx.
  intros [->|H1] [->|H2] E; auto.
  - exfalso. apply Hx. rewrite E. apply in_map, H2.
  - exfalso. apply Hx. rewrite <- E. apply in_map, H1.
Qed.

Lemma filter_removeHandle f h ls :
  List.filter f (removeHandle h ls) = removeHandle h (List.filter f ls).
Proof. apply filter_filter_comm. Qed.

Lemma removeHandle_single h q cb : removeHandle h [mkListener h q cb] = [].
Proof. unfold removeHandle. simpl. rewrite Nat.eqb_refl. reflexivity. Qed.

(** Removing the handle of a message listener leaves the presence listeners
    as they are. *)
Lemma removeHandle_keeps_others n ls h q :
  HandlesOk n ls ->
  In (mkListener h q MessagesCallback) ls ->
  List.filter isOnlineUsersListener (removeHandle h ls)
  = List.filter isOnlineUsersListener ls.
Proof.
  intros Hok Hm. rewrite filter_removeHandle. apply filter_all, List.Forall_forall.
  intros l Hl. apply filter_In in Hl as [Hl Hcb].
  apply negb_true_iff, Nat.eqb_neq. intros E.
  assert (l = mkListener h q MessagesCallback) as ->
    by (eapply handlesOk_same_handle; eauto).
  discriminate Hcb.
Qed.

Section Invariant.
Context {locale : Locale}.

(** ** The invariant of a running instance *)

Lemma consistent_tracked w : Consistent w -> TrackedAs (currentChannel (this w)) w.
Proof. intros [? ? ?]. split; assumption. Qed.

Lemma clearMessageListener_tracked c c' w :
  TrackedAs c w ->
  TrackedAs c' (clearMessageListener w) /\
  messageListener (this (clearMessageListener w)) = None /\
  currentUser (this (clearMessageListener w)) = currentUser (this w) /\
  currentChannel (this (clearMessageListener w)) = currentChannel (this w).
Proof.
  intros [Hok Hm]. unfold clearMessageListener, TrackedAs, messageListeners in *.
  destruct (messageListener (this w)) as [h|] eqn:E.
  - open_world w. repeat split.
    + apply handlesOk_remove, Hok.
    + apply NoDup_map_filter, Hok.
    + rewrite filter_removeHandle, Hm. apply removeHandle_single.
  - rewrite E. auto.
Qed.

Lemma loadMessages_tracked c w :
  is_Some (currentUser (this w)) ->
  TrackedAs c w ->
  TrackedAs (currentChannel (this w)) (loadMessages w) /\
  is_Some (messageListener (this (loadMessages w))) /\
  currentUser (this (loadMessages w)) = currentUser (this w) /\
  currentChannel (this (loadMessages w)) = currentChannel (this w).
Proof.
  intros [u Hu] Ht. unfold loadMessages. rewrite Hu.
  destruct (clearMessageListener_tracked c (currentChannel (this w)) w Ht)
    as ([Hok Hm] & Hnone & Huser & Hchan).
  revert Hok Hm Hnone Huser Hchan. generalize (clearMessageListener w) as w1.
  intros w1 Hok Hm Hnone Huser Hchan.
  unfold TrackedAs, messageListeners in *. rewrite Hnone in Hm.
  open_world w1. subst. repeat split; eauto.
  - apply handlesOk_snoc, Hok.
  - apply handlesOk_snoc, Hok.
  - rewrite List.filter_app, Hm. reflexivity.
Qed.

Lemma loadOnlineUsers_tracked c w :
  TrackedAs c w ->
  TrackedAs c (loadOnlineUsers w) /\ this (loadOnlineUsers w) = this w.
Proof.
  intros [Hok Hm]. unfold loadOnlineUsers, TrackedAs, messageListeners in *.
  destruct (currentUser (this w)); [|auto].
  open_world w. repeat split.
  - apply handlesOk_snoc, Hok.
  - apply handlesOk_snoc, Hok.
  - rewrite List.filter_app, Hm. simpl. apply app_nil_r.
Qed.


Lemma sameCore_refl w : sameCore w w.
Proof. repeat split. Qed.

Lemma sameCore_trans w1 w2 w3 : sameCore w1 w2 -> sameCore w2 w3 -> sameCore w1 w3.
Proof. unfold sameCore. intros (?&?&?&?&?) (?&?&?&?&?). repeat split; congruence. Qed.

Lemma trackedAs_sameCore c w w' : sameCore w w' -> TrackedAs c w -> TrackedAs c w'.
Proof.
  intros (_ & _ & Hl & Hls & Hn). unfold TrackedAs, messageListeners.
  rewrite Hl, Hls, Hn. auto.
Qed.

Lemma consistent_sameCore w w' : sameCore w w' -> Consistent w -> Consistent w'.
Proof.
  intros (Hu & Hc & Hl & Hls & Hn) [Hok Hm Hiff]. unfold messageListeners in *.
  split; unfold messageListeners; rewrite ?Hu, ?Hc, ?Hl, ?Hls, ?Hn; assumption.
Qed.

Lemma forEachOnlineUser_sameCore docs : forall w,
  sameCore w (settled (forEachOnlineUser docs w)).
Proof.
  induction docs as [|user docs IH]; intros w; simpl; [apply sameCore_refl|].
  destruct (currentUser (this w)) as [me|]; [|apply sameCore_refl].
  destruct (negb _); [|apply IH].
  eapply sameCore_trans; [|apply IH]. open_world w. repeat split.
Qed.

Lemma onOnlineUsersSnapshot_sameCore docs w :
  sameCore w (settled (onOnlineUsersSnapshot docs w)).
Proof.
  unfold onOnlineUsersSnapshot. destruct docs as [|user docs].
  - open_world w. repeat split.
  - eapply sameCore_trans; [|apply forEachOnlineUser_sameCore].
    open_world w. repeat split.
Qed.

Lemma sendMessage_sameCore w : sameCore w (sendMessage w).
Proof.
  unfold sendMessage. destruct (currentUser (this w)); [|apply sameCore_refl].
  destruct (isEmpty _); [apply sameCore_refl|]. open_world w. repeat split.
Qed.

Lemma authStateChanged_consistent user w :
  Consistent w -> Consistent (authStateChanged user w).
Proof.
  intros Hw. apply consistent_tracked in Hw as Ht.
  set (c := currentChannel (this w)) in Ht.
  unfold authStateChanged. destruct user as [u|].
  - set (w2 := showChatInterface u (onThis (set_currentUser (Some u)) w)).
    assert (H2 : TrackedAs c w2 /\ currentUser (this w2) = Some u /\
                 currentChannel (this w2) = c).
    { subst w2 c. destruct Ht as [Hok Hm]. unfold TrackedAs, messageListeners in *.
      open_world w. auto. }
    destruct H2 as (H2 & Hu2 & Hc2).
    destruct (loadMessages_tracked c w2) as (H3 & Hl3 & Hu3 & Hc3); [rewrite Hu2; eauto | exact H2 |].
    destruct (loadOnlineUsers_tracked _ _ H3) as (H4 & Hthis4).
    set (w4 := loadOnlineUsers (loadMessages w2)) in *.
    assert (H5 : sameCore w4 (updateUserStatus "online" w4)).
    { unfold updateUserStatus. destruct (currentUser (this w4)); [|apply sameCore_refl].
      open_world w4. repeat split. }
    eapply consistent_sameCore; [exact H5|].
    destruct H4 as [Hok Hm].
    split; [exact Hok | |].
    + rewrite Hm, Hthis4, Hc3. reflexivity.
    + rewrite Hthis4, Hu3, Hu2. split; eauto.
  - set (w2 := showAuthInterface (onThis (set_currentUser None) w)).
    assert (H2 : TrackedAs c w2 /\ currentUser (this w2) = None).
    { subst w2 c. destruct Ht as [Hok Hm]. unfold TrackedAs, messageListeners in *.
      open_world w. auto. }
    destruct H2 as (H2 & Hu2).
    destruct (clearMessageListener_tracked c (currentChannel (this (clearMessageListener w2))) w2 H2)
      as ([Hok Hm] & Hnone & Huser & _).
    split; [exact Hok | exact Hm |].
    rewrite Hnone, Huser, Hu2. split; intros [? H]; discriminate H.
Qed.

Lemma switchChannel_consistent k w :
  Consistent w -> Consistent (switchChannel k w).
Proof.
  intros Hw. unfold switchChannel.
  destruct (channelItems (page w) !! k) as [item|]; [|exact Hw].
  destruct (currentUser (this w)) as [u|] eqn:Hu.
  - apply consistent_tracked in Hw as Ht.
    match goal with |- Consistent (loadMessages ?x) => set (w2 := x) end.
    assert (H2 : TrackedAs (currentChannel (this w)) w2 /\ currentUser (this w2) = Some u).
    { subst w2. destruct Ht as [Hok Hm]. unfold TrackedAs, messageListeners in *.
      open_world w. auto. }
    destruct H2 as (H2 & Hu2).
    destruct (loadMessages_tracked (currentChannel (this w)) w2) as ([Hok Hm] & Hl3 & Hu3 & Hc3);
      [rewrite Hu2; eauto | exact H2 |].
    split; [exact Hok | rewrite Hm, Hc3; reflexivity |].
    rewrite Hu3, Hu2. split; eauto.
  - eapply consistent_sameCore; [|exact Hw]. unfold openAuthModal. open_world w. repeat split.
Qed.

Lemma step_consistent e w : Consistent w -> Consistent (step e w).
Proof.
  intros Hw. destruct e; simpl.
  - apply authStateChanged_consistent, Hw.
  - eapply consistent_sameCore; [|exact Hw]. unfold closeAuthModal.
    open_world w. repeat split.
  - apply switchChannel_consistent, Hw.
  - eapply consistent_sameCore; [|exact Hw]. open_world w. repeat split.
  - eapply consistent_sameCore; [apply sendMessage_sameCore | exact Hw].
  - eapply consistent_sameCore; [|exact Hw]. unfold sendMessageSettled.
    destruct ok; open_world w; repeat split.
  - eapply consistent_sameCore; [|exact Hw]. rewrite handleSearch_eq.
    open_world w. repeat split.
  - eapply consistent_sameCore; [|exact Hw]. unfold deliverMessages.
    destruct (findListener h (db w)) as [l|]; [|apply sameCore_refl].
    destruct (callback l); [|apply sameCore_refl].
    rewrite onMessagesSnapshot_eq. open_world w. repeat split.
  - eapply consistent_sameCore; [|exact Hw]. unfold deliverOnlineUsers.
    destruct (findListener h (db w)) as [l|]; [|apply sameCore_refl].
    destruct (callback l); [apply sameCore_refl|].
    apply onOnlineUsersSnapshot_sameCore.
Qed.

Lemma consistent_new document : Consistent (newAuthUI document).
Proof.
  split; simpl.
  - split; constructor.
  - reflexivity.
  - split; intros [? H]; discriminate H.
Qed.

Lemma run_consistent events : forall w, Consistent w -> Consistent (run events w).
Proof.
  induction events as [|e events IH]; intros w Hw; [exact Hw|].
  apply IH, step_consistent, Hw.
Qed.

(** Every state a running instance can reach is consistent. *)
Lemma reachable_consistent w : Reachable w -> Consistent w.
Proof. intros (document & events & ->). apply run_consistent, consistent_new. Qed.

Lemma reachable_step e w : Reachable w -> Reachable (step e w).
Proof.
  intros (document & events & ->). exists document, (events ++ [e]).
  unfold run. rewrite fold_left_app. reflexivity.
Qed.

End Invariant.

Section Lifecycle.
Context {locale : Locale}.

(** ** Subscriptions over the life of a session *)

Lemma tracked_listener_live c w h :
  TrackedAs c w -> messageListener (this w) = Some h ->
  In (mkListener h (messagesQuery c) MessagesCallback) (listeners (db w)).
Proof.
  intros [_ Hm] Hh. rewrite Hh in Hm. unfold messageListeners in Hm.
  assert (Hin : In (mkListener h (messagesQuery c) MessagesCallback)
                   (List.filter isMessagesListener (listeners (db w))))
    by (rewrite Hm; left; reflexivity).
  apply filter_In in Hin. tauto.
Qed.

Lemma clearMessageListener_keeps_presence c w :
  TrackedAs c w ->
  onlineUsersListeners (clearMessageListener w) = onlineUsersListeners w.
Proof.
  intros Ht. unfold clearMessageListener.
  destruct (messageListener (this w)) as [h|] eqn:Hh; [|reflexivity].
  pose proof (tracked_listener_live c w h Ht Hh) as Hin. destruct Ht as [Hok _].
  unfold onlineUsersListeners. open_world w.
  eapply removeHandle_keeps_others; eauto.
Qed.

Lemma loadMessages_keeps_presence c w :
  TrackedAs c w ->
  onlineUsersListeners (loadMessages w) = onlineUsersListeners w.
Proof.
  intros Ht. unfold loadMessages. destruct (currentUser (this w)); [|reflexivity].
  rewrite <- (clearMessageListener_keeps_presence c w Ht).
  generalize (clearMessageListener w) as w1. intros w1.
  unfold onlineUsersListeners. open_world w1.
  rewrite List.filter_app. simpl. apply app_nil_r.
Qed.

(** The message topic never has more than one live listener. *)
Lemma one_message_listener w : Reachable w -> List.length (messageListeners w) <= 1.
Proof.
  intros Hw. apply reachable_consistent in Hw as [_ Hm _]. rewrite Hm.
  destruct (messageListener (this w)); simpl; lia.
Qed.

Lemma loadOnlineUsers_adds_listener w :
  is_Some (currentUser (this w)) ->
  onlineUsersListeners (loadOnlineUsers w)
  = onlineUsersListeners w ++
    [mkListener (nextHandle (db w)) onlineUsersQuery OnlineUsersCallback].
Proof.
  intros [u Hu]. unfold loadOnlineUsers, onlineUsersListeners. rewrite Hu.
  open_world w. rewrite List.filter_app. reflexivity.
Qed.

(** Every report of a signed-in user adds a presence listener and removes
    none. *)
Lemma sign_in_adds_presence_listener w u :
  Consistent w ->
  exists h,
    onlineUsersListeners (authStateChanged (Some u) w)
    = onlineUsersListeners w ++ [mkListener h onlineUsersQuery OnlineUsersCallback].
Proof.
  intros Hw. apply consistent_tracked in Hw as Ht.
  unfold authStateChanged.
  set (w2 := showChatInterface u (onThis (set_currentUser (Some u)) w)).
  assert (H2 : TrackedAs (currentChannel (this w)) w2 /\ currentUser (this w2) = Some u /\
               onlineUsersListeners w2 = onlineUsersListeners w).
  { subst w2. destruct Ht as [Hok Hm].
    unfold TrackedAs, messageListeners, onlineUsersListeners in *. open_world w. auto. }
  destruct H2 as (H2 & Hu2 & Hp2).
  destruct (loadMessages_tracked _ w2 (ltac:(rewrite Hu2; eauto)) H2) as (_ & _ & Hu3 & _).
  exists (nextHandle (db (loadMessages w2))).
  rewrite <- Hp2, <- (loadMessages_keeps_presence _ w2 H2).
  rewrite <- loadOnlineUsers_adds_listener by (rewrite Hu3, Hu2; eauto).
  generalize (loadOnlineUsers (loadMessages w2)) as w4. intros w4.
  unfold updateUserStatus, onlineUsersListeners.
  destruct (currentUser (this w4)); [|reflexivity]. open_world w4. reflexivity.
Qed.

(** Sign-out leaves the presence listeners live. *)
Lemma sign_out_keeps_presence_listeners w :
  Consistent w ->
  onlineUsersListeners (authStateChanged None w) = onlineUsersListeners w.
Proof.
  intros Hw. apply consistent_tracked in Hw as Ht. unfold authStateChanged.
  set (w2 := showAuthInterface (onThis (set_currentUser None) w)).
  assert (H2 : TrackedAs (currentChannel (this w)) w2 /\
               onlineUsersListeners w2 = onlineUsersListeners w).
  { subst w2. destruct Ht as [Hok Hm].
    unfold TrackedAs, messageListeners, onlineUsersListeners in *. open_world w. auto. }
  destruct H2 as (H2 & Hp2).
  rewrite <- Hp2. eapply clearMessageListener_keeps_presence, H2.
Qed.


Lemma find_removeHandle_snoc h n q cb ls :
  h < n ->
  List.find (fun l => (handle l =? h)%nat) (removeHandle h ls ++ [mkListener n q cb]) = None.
Proof.
  intros Hlt. apply find_none_iff. rewrite List.filter_app. simpl.
  replace (n =? h)%nat with false by (symmetry; apply Nat.eqb_neq; lia).
  rewrite app_nil_r. unfold removeHandle.
  induction ls as [|l ls IH]; simpl; [reflexivity|].
  destruct (handle l =? h)%nat eqn:E; simpl; rewrite ?E; exact IH.
Qed.

(** C2, amended: on sign-out the message listener is cancelled, so that no
    message listener stays live, and the message container shows the
    sign-in notice; the cached log and the set of online users keep their
    contents. *)
Theorem sign_out_cancels_message_listener (w : World) :
  Reachable w ->
  let w' := authStateChanged None w in
  currentUser (this w') = None /\
  messageListener (this w') = None /\
  messageListeners w' = [] /\
  (forall h, messageListener (this w) = Some h ->
             calls (db w') = calls (db w) ++ [CallUnsubscribe h]) /\
  allMessages (this w') = allMessages (this w) /\
  onlineUsers (this w') = onlineUsers (this w) /\
  messagesContainer (page w') = [noResults "Sign in to join the conversation!"].
Proof.
  intros Hw w'. apply reachable_consistent in Hw.
  pose proof (authStateChanged_consistent None w Hw) as [_ Hm' _]. fold w' in Hm'.
  assert (Hnone : messageListener (this w') = None).
  { subst w'. unfold authStateChanged, showAuthInterface, clearMessageListener.
    open_world w. destruct messageListener0; reflexivity. }
  rewrite Hnone in Hm'. split; [|split; [exact Hnone | split; [exact Hm'|]]];
    subst w'; unfold authStateChanged, showAuthInterface, clearMessageListener;
    clear; open_world w; destruct messageListener0; simpl; repeat split;
    intros h Hh; inversion Hh; reflexivity.
Qed.

Lemma find_fresh_snoc h n q cb ls :
  HandlesOk n ls ->
  List.find (fun l => (handle l =? n)%nat) (removeHandle h ls ++ [mkListener n q cb])
  = Some (mkListener n q cb).
Proof.
  intros Hok. apply (handlesOk_remove n h) in Hok as [Hlt _].
  induction Hlt as [|l rest Hl _ IH]; simpl.
  - rewrite Nat.eqb_refl. reflexivity.
  - replace (handle l =? n)%nat with false by (symmetry; apply Nat.eqb_neq; lia).
    exact IH.
Qed.

(** [switchChannel] by a signed-in user, in closed form. *)
Lemma switchChannel_signed_in k w u item h :
  currentUser (this w) = Some u ->
  channelItems (page w) !! k = Some item ->
  messageListener (this w) = Some h ->
  switchChannel k w
  = mkWorld
      (set_messageListener (Some (nextHandle (db w)))
         (set_currentChannel (dataChannel item) (this w)))
      (set_channelHeader (markActive k (channelItems (page w)))
         ("#" +:+ dataChannel item) (describeChannel (dataChannel item)) (page w))
      (mkFirestore
         (removeHandle h (listeners (db w)) ++
          [mkListener (nextHandle (db w)) (messagesQuery (dataChannel item)) MessagesCallback])
         (S (nextHandle (db w)))
         (calls (db w) ++
          [CallUnsubscribe h;
           CallOnSnapshot (nextHandle (db w)) (messagesQuery (dataChannel item))
                          MessagesCallback])).
Proof.
  intros Hu Hitem Hh. unfold switchChannel. rewrite Hitem, Hu.
  unfold loadMessages, clearMessageListener. open_world w. subst. simpl.
  rewrite <- app_assoc. reflexivity.
Qed.

(** C6, amended: a channel switch by a signed-in user first cancels the
    message listener of the old channel and then opens one for the new
    channel, which becomes the only live message listener; the presence
    listeners stay as they are; the log keeps its content until the first
    snapshot of the new listener replaces it; and a snapshot for the cancelled
    listener changes nothing. *)
Theorem switchChannel_resubscribes (k : nat) (w : World) (u : User.t) (item : ChannelItem) :
  Reachable w ->
  currentUser (this w) = Some u ->
  channelItems (page w) !! k = Some item ->
  let w' := switchChannel k w in
  let h' := nextHandle (db w) in
  exists h,
    messageListener (this w) = Some h /\
    calls (db w') =
      calls (db w) ++
      [CallUnsubscribe h;
       CallOnSnapshot h' (messagesQuery (dataChannel item)) MessagesCallback] /\
    currentChannel (this w') = dataChannel item /\
    messageListener (this w') = Some h' /\
    messageListeners w' = [mkListener h' (messagesQuery (dataChannel item)) MessagesCallback] /\
    onlineUsersListeners w' = onlineUsersListeners w /\
    allMessages (this w') = allMessages (this w) /\
    (forall docs, deliverMessages h docs w' = w') /\
    (forall docs, allMessages (this (deliverMessages h' docs w')) = docs).
Proof.
  intros Hw Hu Hitem w' h'. apply reachable_consistent in Hw.
  destruct (proj2 (listener_iff_signed_in w Hw)) as [h Hh]; [rewrite Hu; eauto|].
  exists h. split; [exact Hh|].
  apply consistent_tracked in Hw as Ht.
  pose proof (tracked_listener_live _ w h Ht Hh) as Hlive.
  destruct Ht as [Hok Hm]. rewrite Hh in Hm.
  pose proof (handlesOk_in_lt _ _ _ Hok Hlive) as Hlt. simpl in Hlt.
  subst w' h'. rewrite (switchChannel_signed_in k w u item h Hu Hitem Hh).
  unfold deliverMessages, findListener, messageListeners, onlineUsersListeners in *.
  simpl. repeat split.
  - rewrite List.filter_app, filter_removeHandle, Hm, removeHandle_single. reflexivity.
  - rewrite List.filter_app. simpl. rewrite app_nil_r.
    eapply removeHandle_keeps_others; eauto.
  - intros docs. rewrite find_removeHandle_snoc by exact Hlt. reflexivity.
  - intros docs. rewrite find_fresh_snoc by exact Hok. simpl.
    rewrite onMessagesSnapshot_eq. reflexivity.
Qed.

End Lifecycle.

(** ** The sample session *)

Lemma signedIn_reachable : Reachable (locale := fixedClock) signedIn.
Proof. eexists _, _. reflexivity. Defined.

Lemma chatting_reachable : Reachable (locale := fixedClock) chatting.
Proof. eexists _, _. reflexivity. Defined.

(** C1: signing in, out and in again leaves two presence listeners live
    (handles 1 and 3) beside the one message listener (handle 2), and a
    presence snapshot for the older of the two still reaches its callback and
    rewrites the set of online users. *)
Theorem presence_listeners_pile_up :
  let w := run (locale := fixedClock)
               [AuthStateChanged (Some alice); AuthStateChanged None;
                AuthStateChanged (Some alice)]
               (newAuthUI samplePage) in
  map handle (onlineUsersListeners w) = [1; 3] /\
  map query (onlineUsersListeners w) = [onlineUsersQuery; onlineUsersQuery] /\
  map handle (messageListeners w) = [2] /\
  calls (db w) =
    [CallOnSnapshot 0 (messagesQuery "ideas") MessagesCallback;
     CallOnSnapshot 1 onlineUsersQuery OnlineUsersCallback;
     CallGetDocs (userByUidQuery "u1");
     CallUnsubscribe 0;
     CallOnSnapshot 2 (messagesQuery "ideas") MessagesCallback;
     CallOnSnapshot 3 onlineUsersQuery OnlineUsersCallback;
     CallGetDocs (userByUidQuery "u1")] /\
  peopleList (page (step (locale := fixedClock) (OnlineUsersSnapshot 1 [bobDoc]) w))
    = [personItem bobDoc] /\
  peopleList (page (step (locale := fixedClock) (OnlineUsersSnapshot 3 [bobDoc]) w))
    = [personItem bobDoc].
Proof. repeat split. Qed.

(** After sign-out the presence listener of the session is still called, and
    its callback throws on the first entry of a snapshot. *)
Example presence_callback_throws_after_sign_out :
  let w := run (locale := fixedClock)
               [AuthStateChanged (Some alice); AuthStateChanged None]
               (newAuthUI samplePage) in
  map handle (listeners (db w)) = [1] /\
  exists w', deliverOnlineUsers 1 [bobDoc] w = Throw w'.
Proof. split; [reflexivity | eexists; reflexivity]. Qed.

(** C2, as stated, fails: after the sign-out of the sample session the log
    still holds its two messages (and Bob is still in the set of online
    users). *)
Lemma sign_out_keeps_log_and_presence :
  ~ SignOutClearsEverything chatting.
Proof. intros (_ & Hlog & _). discriminate Hlog. Qed.

Example sign_out_leaves_log_of_sample :
  allMessages (this (authStateChanged None chatting)) = [early; late] /\
  "u2" ∈ onlineUsers (this (authStateChanged None chatting)).
Proof. split; [reflexivity|]. vm_compute. set_solver. Qed.

(** C2 on the sample session. *)
Lemma sign_out_sample :
  messageListeners (authStateChanged None chatting) = [] /\
  allMessages (this (authStateChanged None chatting))
    = allMessages (this chatting).
Proof.
  pose proof (sign_out_cancels_message_listener (locale := fixedClock) chatting
                chatting_reachable) as H.
  split; apply H.
Defined.




(** C5: in the sample session the main list shows Bob's message with its text
    escaped, while a search that finds the same message inserts the text as
    typed, markup included. *)
Theorem search_results_show_raw_text :
  let w := step (locale := fixedClock) (SearchTyped "hi") chatting in
  Message.text late = "<b>Hi</b>" /\
  escapeHtml (Message.text late) = "&lt;b&gt;Hi&lt;/b&gt;" /\
  searchResults (page w) = [searchResultItem (locale := fixedClock) late] /\
  includes (innerHTML (searchResultItem (locale := fixedClock) late)) "<b>Hi</b>" = true /\
  includes (innerHTML (searchResultItem (locale := fixedClock) late))
           (escapeHtml (Message.text late)) = false /\
  messagesContainer (page w) !! 1 = Some (messageDiv (locale := fixedClock) (Some alice) late) /\
  includes (innerHTML (messageDiv (locale := fixedClock) (Some alice) late))
           (escapeHtml (Message.text late)) = true /\
  includes (innerHTML (messageDiv (locale := fixedClock) (Some alice) late)) "<b>Hi</b>" = false.
Proof. repeat split. Qed.

(** C6, as stated, fails: after the switch to the second channel the log
    still holds the two messages of the first. *)
Lemma switch_keeps_log :
  ~ SwitchResetsLog (locale := fixedClock) 1 chatting.
Proof. intros (h & item & _ & _ & _ & Hlog & _). discriminate Hlog. Qed.

Example switch_keeps_log_of_sample :
  allMessages (this (switchChannel 1 chatting)) = [early; late] /\
  currentChannel (this (switchChannel 1 chatting)) = "support".
Proof. split; reflexivity. Qed.

(** C6 on the sample session: Alice switches to the second channel. *)
Lemma switch_sample :
  exists h,
    messageListener (this chatting) = Some h /\
    calls (db (switchChannel 1 chatting)) =
      calls (db chatting) ++
      [CallUnsubscribe h; CallOnSnapshot 2 (messagesQuery "support") MessagesCallback] /\
    forall docs,
      deliverMessages (locale := fixedClock) h docs (switchChannel 1 chatting)
      = switchChannel 1 chatting.
Proof.
  destruct (switchChannel_resubscribes (locale := fixedClock) 1 chatting alice
              (mkChannelItem "support" ["channel-item"])
              chatting_reachable eq_refl eq_refl)
    as (h & Hh & Hcalls & _ & _ & _ & _ & _ & Hstale & _).
  exists h. split; [exact Hh|]. split; [exact Hcalls | exact Hstale].
Defined.

(** C7, as stated, fails: the typed term [a ] (with a trailing space) occurs
    in no message, yet the search shows Alice's message, which contains [a]. *)
Lemma search_ignores_surrounding_space :
  searchResults (page (step (locale := fixedClock) (SearchTyped "a ") chatting))
  <> renderSearchView (locale := fixedClock)
       (searchAsSpecified "a " (allMessages (this chatting))).
Proof. discriminate. Qed.

Example search_trailing_space_sample :
  searchResults (page (step (locale := fixedClock) (SearchTyped "a ") chatting))
    = [searchResultItem (locale := fixedClock) early] /\
  searchAsSpecified "a " (allMessages (this chatting)) = NoResults /\
  searchTrimmed "a " (allMessages (this chatting)) = Results [early].
Proof. repeat split. Qed.

(** C8 on the sample session: a presence snapshot with Alice herself, Bob
    and Carol. *)
Lemma presence_sample :
  exists w',
    onOnlineUsersSnapshot [aliceDoc; bobDoc; carolDoc] signedIn = Normal w' /\
    ("u1" ∉ onlineUsers (this w')) /\
    "u2" ∈ onlineUsers (this w') /\
    "u3" ∈ onlineUsers (this w') /\
    peopleList (page w') = [personItem bobDoc; personItem carolDoc].
Proof.
  destruct (presence_is_snapshot_without_self signedIn alice
              [aliceDoc; bobDoc; carolDoc] eq_refl)
    as (w' & Hrun & _ & Hself & Hin & Hlist).
  exists w'. split; [exact Hrun|]. split; [exact Hself|].
  split; [|split; [|exact Hlist]]; apply Hin.
  - exists bobDoc. split; [|split; [reflexivity | discriminate]].
    apply list_elem_of_In. right. left. reflexivity.
  - exists carolDoc. split; [|split; [reflexivity | discriminate]].
    apply list_elem_of_In. right. right. left. reflexivity.
Defined.

(** C10 on the sample page before anybody has signed in. *)
Lemma switch_signed_out_sample :
  this (switchChannel 1 signedOut) = this signedOut /\
  db (switchChannel 1 signedOut) = db signedOut /\
  authModal (page (switchChannel 1 signedOut)) = ["active"].
Proof.
  destruct (switchChannel_signed_out_changes_nothing 1 signedOut eq_refl)
    as (Hthis & Hdb & _ & Hmodal).
  split; [exact Hthis|]. split; [exact Hdb|].
  apply Hmodal. eexists. reflexivity.
Defined.

(** * Further properties of the code *)

(** ** Escaping and encoding *)

Lemma allChars_append p a b : allChars p (a +:+ b) = allChars p a && allChars p b.
Proof.
  induction a as [|c a IH]; [reflexivity|].
  change (p c && allChars p (a +:+ b) = p c && allChars p a && allChars p b).
  rewrite IH. apply andb_assoc.
Qed.

Lemma escapeUnit_no_angle_bracket c :
  allChars (fun x => negb (isAngleBracket x)) (escapeUnit c) = true.
Proof. destruct c as [[] [] [] [] [] [] [] []]; reflexivity. Qed.

(** X1: whatever the text, its escaped form holds neither [<] nor [>], so
    the text of a message cannot open or close a tag in the message list. *)
Theorem escapeHtml_no_angle_bracket (text : string) :
  allChars (fun c => negb (isAngleBracket c)) (escapeHtml text) = true.
Proof.
  unfold escapeHtml. induction text as [|c text IH]; [reflexivity|].
  simpl serializeText. rewrite allChars_append, escapeUnit_no_angle_bracket. exact IH.
Qed.

Lemma unescapeText_escapeUnit c rest :
  unescapeText (escapeUnit c +:+ rest) = String c (unescapeText rest).
Proof. destruct c as [[] [] [] [] [] [] [] []]; reflexivity. Qed.

Lemma unescapeText_escapeHtml text : unescapeText (escapeHtml text) = text.
Proof.
  unfold escapeHtml. induction text as [|c text IH]; [reflexivity|].
  simpl serializeText. rewrite unescapeText_escapeUnit, IH. reflexivity.
Qed.

(** X2: two texts with the same escaped form are the same text: escaping
    loses nothing, and reading the four character references back gives the
    text again. *)
Theorem escapeHtml_injective (a b : string) :
  escapeHtml a = escapeHtml b -> a = b.
Proof.
  intros H. rewrite <- (unescapeText_escapeHtml a), <- (unescapeText_escapeHtml b), H.
  reflexivity.
Qed.

Lemma encodeUnit_safe c :
  allChars (fun x => isUriUnreserved x || Ascii.eqb x "%") (encodeUnit c) = true.
Proof. destruct c as [[] [] [] [] [] [] [] []]; reflexivity. Qed.

(** The encoded form of any string consists of unreserved characters and
    percent signs only. *)
Lemma encodeURIComponent_safe (s : string) :
  allChars (fun c => isUriUnreserved c || Ascii.eqb c "%") (encodeURIComponent s) = true.
Proof.
  induction s as [|c s IH]; [reflexivity|].
  simpl encodeURIComponent. rewrite allChars_append, encodeUnit_safe. exact IH.
Qed.

(** X3: for a user without a photo, the avatar address written with a
    message and the one written with the user document are the same fixed
    address with one [name] parameter, whose value consists of unreserved
    characters and percent signs only: whatever the display name or e-mail
    holds ([&], [=], [#], spaces), it cannot add to or cut short the query
    string. *)
Theorem generated_avatar_is_well_formed (user : User.t) (messageText channelId : string) :
  User.photoURL user = None \/ User.photoURL user = Some EmptyString ->
  exists name,
    allChars (fun c => isUriUnreserved c || Ascii.eqb c "%") name = true /\
    Message.avatar (newMessage user messageText channelId)
      = Some ("https://ui-avatars.com/api/?name=" +:+ name +:+ "&background=ec4899&color=fff") /\
    recordAvatar (userRecord user)
      = "https://ui-avatars.com/api/?name=" +:+ name +:+ "&background=ec4899&color=fff".
Proof.
  intros Hphoto.
  exists (encodeURIComponent (orElse (User.displayName user) (User.email user))).
  split; [apply encodeURIComponent_safe|]. split; [|reflexivity].
  unfold newMessage. simpl. destruct Hphoto as [-> | ->]; reflexivity.
Qed.

(** ** Trimming *)

Lemma startsClean_trimStart s : startsClean (trimStart s) = true.
Proof.
  induction s as [|c s IH]; [reflexivity|]. simpl.
  destruct (isWhiteSpace c) eqn:E; [exact IH | simpl; rewrite E; reflexivity].
Qed.

Lemma trimStart_clean s : startsClean s = true -> trimStart s = s.
Proof.
  destruct s as [|c s]; [reflexivity|]. simpl. intros H.
  apply negb_true_iff in H. rewrite H. reflexivity.
Qed.

Lemma startsClean_trimEnd s : startsClean s = true -> startsClean (trimEnd s) = true.
Proof.
  destruct s as [|c s]; [reflexivity|]. simpl. intros H.
  apply negb_true_iff in H. rewrite H. simpl. rewrite H. reflexivity.
Qed.

Lemma trimEnd_idempotent s : trimEnd (trimEnd s) = trimEnd s.
Proof.
  induction s as [|c s IH]; [reflexivity|]. simpl.
  destruct (isWhiteSpace c && isEmpty (trimEnd s)) eqn:E; [reflexivity|].
  simpl. rewrite IH, E. reflexivity.
Qed.

(** Trimming a trimmed string changes nothing. *)
Lemma trim_idempotent s : trim (trim s) = trim s.
Proof.
  unfold trim.
  rewrite (trimStart_clean (trimEnd (trimStart s)))
    by apply startsClean_trimEnd, startsClean_trimStart.
  apply trimEnd_idempotent.
Qed.

Lemma startsWith_trimEnd s : startsWith s (trimEnd s) = true.
Proof.
  induction s as [|c s IH]; [reflexivity|]. simpl.
  destruct (isWhiteSpace c && isEmpty (trimEnd s)); [reflexivity|].
  rewrite Ascii.eqb_refl. exact IH.
Qed.

Lemma includes_startsWith s t : startsWith s t = true -> includes s t = true.
Proof. intros H. destruct s; simpl in *; rewrite H; reflexivity. Qed.

Lemma includes_trimStart s t : includes (trimStart s) t = true -> includes s t = true.
Proof.
  induction s as [|c s IH]; [auto|]. simpl trimStart.
  destruct (isWhiteSpace c); [|auto].
  intros H. simpl. rewrite (IH H). apply orb_true_r.
Qed.

(** A string contains what is left of it after trimming. *)
Lemma includes_trim s : includes s (trim s) = true.
Proof. apply includes_trimStart, includes_startsWith, startsWith_trimEnd. Qed.

Section FurtherSending.
Context {locale : Locale}.

(** ** Sending *)

Lemma writtenRecords_app a b : writtenRecords (a ++ b) = writtenRecords a ++ writtenRecords b.
Proof. apply flat_map_app. Qed.

Lemma forEachOnlineUser_db docs : forall w, db (settled (forEachOnlineUser docs w)) = db w.
Proof.
  induction docs as [|user docs IH]; intros w; simpl; [reflexivity|].
  destruct (currentUser (this w)); [|reflexivity].
  destruct (negb _); rewrite IH; [open_world w|]; reflexivity.
Qed.

Lemma sendMessage_writes w :
  writtenRecords (calls (db (sendMessage w))) = writtenRecords (calls (db w)) \/
  exists record,
    writtenRecords (calls (db (sendMessage w)))
      = writtenRecords (calls (db w)) ++ [("messages", record)] /\
    wellFormedWrite ("messages", record).
Proof.
  unfold sendMessage. destruct (currentUser (this w)) as [user|]; [|left; reflexivity].
  destruct (isEmpty (trim (messageInput (page w)))) eqn:E; [left; reflexivity|].
  right. exists (newMessage user (trim (messageInput (page w))) (currentChannel (this w))).
  split.
  - open_world w. rewrite writtenRecords_app. reflexivity.
  - repeat split; simpl.
    + intros H. apply isEmpty_true in H. congruence.
    + apply trim_idempotent.
Qed.

Lemma clearMessageListener_writes w :
  writtenRecords (calls (db (clearMessageListener w))) = writtenRecords (calls (db w)).
Proof.
  unfold clearMessageListener. destruct (messageListener (this w)); [|reflexivity].
  change (writtenRecords (calls (db w) ++ [CallUnsubscribe n]) = writtenRecords (calls (db w))).
  rewrite writtenRecords_app. apply app_nil_r.
Qed.

Lemma loadMessages_writes w :
  writtenRecords (calls (db (loadMessages w))) = writtenRecords (calls (db w)).
Proof.
  unfold loadMessages. destruct (currentUser (this w)); [|reflexivity].
  rewrite <- (clearMessageListener_writes w).
  generalize (clearMessageListener w) as w1. intros w1.
  change (writtenRecords
            (calls (db w1) ++
             [CallOnSnapshot (nextHandle (db w1)) (messagesQuery (currentChannel (this w1)))
                             MessagesCallback])
          = writtenRecords (calls (db w1))).
  rewrite writtenRecords_app. apply app_nil_r.
Qed.

Lemma loadOnlineUsers_writes w :
  writtenRecords (calls (db (loadOnlineUsers w))) = writtenRecords (calls (db w)).
Proof.
  unfold loadOnlineUsers. destruct (currentUser (this w)); [|reflexivity].
  change (writtenRecords
            (calls (db w) ++
             [CallOnSnapshot (nextHandle (db w)) onlineUsersQuery OnlineUsersCallback])
          = writtenRecords (calls (db w))).
  rewrite writtenRecords_app. apply app_nil_r.
Qed.

Lemma updateUserStatus_writes status w :
  writtenRecords (calls (db (updateUserStatus status w))) = writtenRecords (calls (db w)).
Proof.
  unfold updateUserStatus. destruct (currentUser (this w)) as [u|]; [|reflexivity].
  change (writtenRecords (calls (db w) ++ [CallGetDocs (userByUidQuery (User.uid u))])
          = writtenRecords (calls (db w))).
  rewrite writtenRecords_app. apply app_nil_r.
Qed.

(** Every step of a session leaves the written records as they are or adds
    one well-formed record. *)
Lemma step_writes e w :
  writtenRecords (calls (db (step e w))) = writtenRecords (calls (db w)) \/
  exists record,
    writtenRecords (calls (db (step e w)))
      = writtenRecords (calls (db w)) ++ [("messages", record)] /\
    wellFormedWrite ("messages", record).
Proof.
  destruct e; simpl step; try apply sendMessage_writes; left.
  - unfold authStateChanged. destruct user as [u|].
    + rewrite updateUserStatus_writes, loadOnlineUsers_writes, loadMessages_writes.
      reflexivity.
    + rewrite clearMessageListener_writes. reflexivity.
  - reflexivity.
  - unfold switchChannel. destruct (channelItems (page w) !! k); [|reflexivity].
    destruct (currentUser (this w)); [|reflexivity].
    rewrite loadMessages_writes. reflexivity.
  - reflexivity.
  - unfold sendMessageSettled. destruct ok; reflexivity.
  - rewrite handleSearch_eq. reflexivity.
  - unfold deliverMessages. destruct (findListener h (db w)) as [l|]; [|reflexivity].
    destruct (callback l); [|reflexivity]. rewrite onMessagesSnapshot_eq. reflexivity.
  - unfold deliverOnlineUsers. destruct (findListener h (db w)) as [l|]; [|reflexivity].
    destruct (callback l); [reflexivity|].
    unfold onOnlineUsersSnapshot. destruct docs; [reflexivity|].
    rewrite forEachOnlineUser_db. reflexivity.
Qed.

Lemma run_writes events : forall w,
  Forall wellFormedWrite (writtenRecords (calls (db w))) ->
  Forall wellFormedWrite (writtenRecords (calls (db (run events w)))).
Proof.
  induction events as [|e events IH]; intros w Hw; [exact Hw|].
  apply IH. destruct (step_writes e w) as [E | (record & E & Hr)]; rewrite E.
  - exact Hw.
  - apply Forall_app. split; [exact Hw | repeat constructor; apply Hr].
Qed.

(** X4: whatever happens in a session, every record that has been written
    to the messages collection (the writes of [sendMessage]) has a text that
    is not empty and has no white space at either end, and carries the
    pending server timestamp. The write of [createUserDocument] goes to the
    users collection and is logged with the forms; it is no part of this
    statement. *)
Theorem writes_are_never_blank (w : World) (record : Message.t) :
  Reachable w ->
  In (CallAddDoc "messages" record) (calls (db w)) ->
  Message.text record <> EmptyString /\
  trim (Message.text record) = Message.text record /\
  Message.timestamp record = None.
Proof.
  intros (document & events & ->) Hin.
  pose proof (run_writes events (newAuthUI document) (List.Forall_nil _)) as Hall.
  rewrite List.Forall_forall in Hall.
  apply (Hall ("messages", record)). unfold writtenRecords.
  apply in_flat_map. eexists. split; [exact Hin|]. left. reflexivity.
Qed.

(** X5: [sendMessage] leaves the input as it is until the write has settled,
    so a second click (or Enter) before that writes the same record a second
    time. *)
Theorem sending_twice_writes_twice (w : World) (user : User.t) :
  currentUser (this w) = Some user ->
  trim (messageInput (page w)) <> EmptyString ->
  let record := newMessage user (trim (messageInput (page w))) (currentChannel (this w)) in
  calls (db (sendMessage (sendMessage w)))
  = calls (db w) ++ [CallAddDoc "messages" record; CallAddDoc "messages" record].
Proof.
  intros Hu Htext record. subst record. unfold sendMessage.
  destruct (isEmpty (trim (messageInput (page w)))) eqn:E;
    [apply isEmpty_true in E; contradiction|].
  rewrite Hu. open_world w. rewrite Hu, E. simpl. rewrite <- app_assoc. reflexivity.
Qed.


(** ** Rendering *)

Lemma sent_is_not_received : "message sent" <> "message received".
Proof. discriminate. Qed.

(** X7: a message is shown as sent exactly when a user is signed in and the
    message carries that user's id; every other message is shown as
    received. *)
Theorem sent_iff_own_message (me : option User.t) (message : Message.t) :
  (className (messageDiv me message) = "message sent" <->
   exists user, me = Some user /\ Message.userId message = User.uid user) /\
  (className (messageDiv me message) = "message sent" \/
   className (messageDiv me message) = "message received").
Proof.
  unfold messageDiv. simpl className. destruct me as [user|].
  - destruct (String.eqb_spec (Message.userId message) (User.uid user)) as [E|E]; simpl.
    + split; [|left; reflexivity]. split; [eauto | reflexivity].
    + split; [|right; reflexivity]. split; [discriminate|].
      intros (u & Hu & Hid). injection Hu as <-. contradiction.
  - simpl. split; [|right; reflexivity]. split; [discriminate|].
    intros (u & Hu & _). discriminate Hu.
Qed.

(** X8: the record [sendMessage] writes comes back to its sender as a sent
    message with the time text [Just now] (while the server timestamp is
    pending), and to every other user as a received one. *)
Theorem own_message_echo (user other : User.t) (messageText channelId : string) :
  let record := newMessage user messageText channelId in
  messageDiv (Some user) record
    = mkElement "div" "message sent" (messageMarkup record "Just now") /\
  (User.uid other <> User.uid user ->
   messageDiv (Some other) record
     = mkElement "div" "message received" (messageMarkup record "Just now")).
Proof.
  intros record. unfold messageDiv. simpl. rewrite String.eqb_refl. split; [reflexivity|].
  intros Hne. apply not_eq_sym, String.eqb_neq in Hne. rewrite Hne. reflexivity.
Qed.

End FurtherSending.

Section FurtherSearch.
Context {locale : Locale}.

(** ** Searching *)

(** X9: a message of the log is among the search results whenever its own
    text is typed as the term, in whatever letter case, unless the text is
    white space only. *)
Theorem search_finds_own_text (w : World) (message : Message.t) (value : string) :
  In message (allMessages (this w)) ->
  toLowerCase value = toLowerCase (Message.text message) ->
  whitespaceOnly (Message.text message) = false ->
  In (searchResultItem message) (searchResults (page (step (SearchTyped value) w))).
Proof.
  intros Hin Hcase Htext. simpl step. rewrite handleSearch_eq.
  assert (Hws : whitespaceOnly value = false).
  { rewrite <- isEmpty_trim, <- isEmpty_toLowerCase, toLowerCase_trim, Hcase,
      <- toLowerCase_trim, isEmpty_toLowerCase, isEmpty_trim. exact Htext. }
  assert (Hfound : In message (List.filter (matchesTerm (trim value)) (allMessages (this w)))).
  { apply filter_In. split; [exact Hin|]. unfold matchesTerm, containsIgnoringCase.
    rewrite toLowerCase_trim, Hcase, includes_trim. reflexivity. }
  change (In (searchResultItem message)
            (renderSearchView
               (searchTrimmed value
                  (allMessages (this (onPage (set_searchModalInput value) w)))))).
  change (allMessages (this (onPage (set_searchModalInput value) w)))
    with (allMessages (this w)).
  unfold searchTrimmed. rewrite Hws.
  destruct (List.filter _ _) as [|m found] eqn:E; [destruct Hfound|].
  change (In (searchResultItem message) (map searchResultItem (m :: found))).
  apply in_map, Hfound.
Qed.

Lemma sign_out_keeps_log w :
  allMessages (this (authStateChanged None w)) = allMessages (this w).
Proof.
  unfold authStateChanged, clearMessageListener.
  destruct (messageListener _); reflexivity.
Qed.

(** X10: sign-out does not change what a search shows: the log of the user
    who signed out is still searched. *)
Theorem search_unchanged_by_sign_out (w : World) (value : string) :
  searchResults (page (run [AuthStateChanged None; SearchTyped value] w))
  = searchResults (page (run [SearchTyped value] w)).
Proof.
  change (searchResults
            (page (handleSearch (onPage (set_searchModalInput value) (authStateChanged None w))))
          = searchResults (page (handleSearch (onPage (set_searchModalInput value) w)))).
  rewrite !handleSearch_eq.
  change (renderSearchView
            (searchTrimmed value (allMessages (this (authStateChanged None w))))
          = renderSearchView (searchTrimmed value (allMessages (this w)))).
  rewrite sign_out_keeps_log. reflexivity.
Qed.

End FurtherSearch.

Section FurtherLifecycle.
Context {locale : Locale}.

(** ** The session *)

(** X11: in every state of a session there is no live message listener
    while nobody is signed in, and while a user is signed in there is exactly
    one, recorded in [messageListener] and listening on the current
    channel. *)
Theorem message_listener_follows_session (w : World) :
  Reachable w ->
  match currentUser (this w) with
  | None => messageListener (this w) = None /\ messageListeners w = []
  | Some _ =>
      exists h,
        messageListener (this w) = Some h /\
        messageListeners w
          = [mkListener h (messagesQuery (currentChannel (this w))) MessagesCallback]
  end.
Proof.
  intros Hw. apply reachable_consistent in Hw as [_ Hm Hiff].
  destruct (currentUser (this w)) as [u|].
  - destruct (proj2 Hiff) as [h Hh]; [eauto|]. exists h. rewrite Hh in Hm. auto.
  - destruct (messageListener (this w)) as [h|] eqn:Hh; [|auto].
    destruct (proj1 Hiff) as [? H]; [eauto | discriminate H].
Qed.

Lemma switchChannel_keeps_presence k w :
  Consistent w -> onlineUsersListeners (switchChannel k w) = onlineUsersListeners w.
Proof.
  intros Hw. apply consistent_tracked in Hw as Ht. unfold switchChannel.
  destruct (channelItems (page w) !! k) as [item|]; [|reflexivity].
  destruct (currentUser (this w)) as [u|] eqn:Hu.
  - match goal with |- onlineUsersListeners (loadMessages ?x) = _ => set (w2 := x) end.
    assert (H2 : TrackedAs (currentChannel (this w)) w2 /\
                 onlineUsersListeners w2 = onlineUsersListeners w).
    { subst w2. destruct Ht as [Hok Hm].
      unfold TrackedAs, messageListeners, onlineUsersListeners in *. open_world w. auto. }
    destruct H2 as (H2 & Hp2). rewrite <- Hp2.
    apply (loadMessages_keeps_presence _ w2 H2).
  - unfold openAuthModal, onlineUsersListeners. open_world w. reflexivity.
Qed.

Lemma sameCore_keeps_presence w w' :
  sameCore w w' -> onlineUsersListeners w' = onlineUsersListeners w.
Proof. intros (_ & _ & _ & Hl & _). unfold onlineUsersListeners. rewrite Hl. reflexivity. Qed.

Lemma step_presence_listeners e w :
  Consistent w ->
  List.length (onlineUsersListeners (step e w))
  = List.length (onlineUsersListeners w) + (if isSignIn e then 1 else 0).
Proof.
  intros Hw.
  assert (Hsame : forall w', sameCore w w' ->
            List.length (onlineUsersListeners w') = List.length (onlineUsersListeners w) + 0).
  { intros w' Hs. rewrite (sameCore_keeps_presence w w' Hs). lia. }
  destruct e; simpl.
  - destruct user as [u|].
    + destruct (sign_in_adds_presence_listener w u Hw) as [h ->].
      rewrite length_app. reflexivity.
    + rewrite (sign_out_keeps_presence_listeners w Hw). lia.
  - apply Hsame. unfold closeAuthModal. open_world w. repeat split.
  - rewrite (switchChannel_keeps_presence k w Hw). lia.
  - apply Hsame. open_world w. repeat split.
  - apply Hsame, sendMessage_sameCore.
  - apply Hsame. unfold sendMessageSettled. destruct ok; open_world w; repeat split.
  - apply Hsame. rewrite handleSearch_eq. open_world w. repeat split.
  - apply Hsame. unfold deliverMessages.
    destruct (findListener h (db w)) as [l|]; [|apply sameCore_refl].
    destruct (callback l); [|apply sameCore_refl].
    rewrite onMessagesSnapshot_eq. open_world w. repeat split.
  - apply Hsame. unfold deliverOnlineUsers.
    destruct (findListener h (db w)) as [l|]; [|apply sameCore_refl].
    destruct (callback l); [apply sameCore_refl|].
    apply onOnlineUsersSnapshot_sameCore.
Qed.

Lemma run_presence_listeners events : forall w,
  Consistent w ->
  List.length (onlineUsersListeners (run events w))
  = List.length (onlineUsersListeners w) + signIns events.
Proof.
  induction events as [|e events IH]; intros w Hw.
  - simpl. unfold signIns. simpl. lia.
  - change (run (e :: events) w) with (run events (step e w)).
    rewrite IH by apply step_consistent, Hw.
    rewrite (step_presence_listeners e w Hw). unfold signIns. simpl.
    destruct (isSignIn e); simpl; lia.
Qed.

(** X12: the number of live presence listeners of a session equals the
    number of times the auth service has reported a signed-in user: each
    report adds one, and nothing (no sign-out, no channel switch) ever
    removes one. *)
Theorem presence_listeners_count_sign_ins (document : Page) (events : list Event) :
  List.length (onlineUsersListeners (run events (newAuthUI document))) = signIns events.
Proof. rewrite run_presence_listeners by apply consistent_new. reflexivity. Qed.

End FurtherLifecycle.

(** ** Class lists *)

Lemma in_classList_remove x c l : In x (ClassList.remove c l) <-> In x l /\ x <> c.
Proof.
  unfold ClassList.remove. rewrite filter_In, negb_true_iff, String.eqb_neq. reflexivity.
Qed.

Lemma in_classList_add x c l : In x (ClassList.add c l) <-> x = c \/ In x l.
Proof.
  unfold ClassList.add. destruct (existsb (String.eqb c) l) eqn:E.
  - apply existsb_exists in E as (y & Hy & Ey). apply String.eqb_eq in Ey. subst y.
    split; [auto|]. intros [->|H]; assumption.
  - rewrite in_app_iff. simpl. intuition (subst; auto).
Qed.

Lemma classList_remove_absent c l : ~ In c l -> ClassList.remove c l = l.
Proof.
  intros H. apply filter_all, List.Forall_forall. intros x Hx.
  apply negb_true_iff, String.eqb_neq. intros ->. contradiction.
Qed.

Lemma classList_add_present c l : In c l -> ClassList.add c l = l.
Proof.
  intros H. unfold ClassList.add.
  replace (existsb (String.eqb c) l) with true; [reflexivity|].
  symmetry. apply existsb_exists. exists c. split; [exact H | apply String.eqb_refl].
Qed.

(** Replacing class [a] by class [b] a second time changes nothing. *)
Lemma classList_swap_idempotent a b l :
  a <> b ->
  ClassList.add b (ClassList.remove a (ClassList.add b (ClassList.remove a l)))
  = ClassList.add b (ClassList.remove a l).
Proof.
  intros Hab. rewrite (classList_remove_absent a).
  - apply classList_add_present, in_classList_add. auto.
  - rewrite in_classList_add, in_classList_remove. intros [E|[_ E]]; congruence.
Qed.

(** The class-list operations are reasoned about through the lemmas above. *)
Arguments ClassList.add : simpl never.
Arguments ClassList.remove : simpl never.

Section FurtherAuth.
Context {locale : Locale}.

(** ** Auth reports *)

(** The auth callback for no user, in closed form. *)
Lemma sign_out_eq w :
  authStateChanged None w
  = mkWorld
      (set_messageListener None (set_currentUser None (this w)))
      (set_messagesContainer
         [noResults "Sign in to join the conversation!"]
         (set_chrome
            (mkChrome "Guest User" "Join to chat" "#000000de" "Offline" "Login"
               (ClassList.add "login-btn"
                  (ClassList.remove "donate-btn" (authToggleBtnClasses (chrome (page w)))))
               "none" true "Sign in to send messages..." true)
            (page w)))
      (match messageListener (this w) with
       | Some h => unsubscribe h (db w)
       | None => db w
       end).
Proof.
  destruct w as [[user channel listener log online lang] p d].
  unfold authStateChanged, showAuthInterface, clearMessageListener.
  destruct listener; reflexivity.
Qed.

(** X13: a second report that nobody is signed in changes nothing: the store
    is not called again and the page stays as the first report left it. *)
Theorem sign_out_twice_is_sign_out (w : World) :
  authStateChanged None (authStateChanged None w) = authStateChanged None w.
Proof.
  rewrite (sign_out_eq w). rewrite sign_out_eq.
  cbn [this page db messageListener currentUser set_messageListener set_currentUser
       chrome authToggleBtnClasses set_chrome set_messagesContainer].
  rewrite classList_swap_idempotent by discriminate.
  destruct w as [[user channel listener log online lang] p d].
  destruct listener; reflexivity.
Qed.

Lemma loadMessages_page w : page (loadMessages w) = page w.
Proof.
  unfold loadMessages, clearMessageListener.
  destruct (currentUser (this w)); [|reflexivity].
  destruct (messageListener (this w)); reflexivity.
Qed.

Lemma loadOnlineUsers_page w : page (loadOnlineUsers w) = page w.
Proof. unfold loadOnlineUsers. destruct (currentUser (this w)); reflexivity. Qed.

Lemma updateUserStatus_page status w : page (updateUserStatus status w) = page w.
Proof. unfold updateUserStatus. destruct (currentUser (this w)); reflexivity. Qed.

(** The chrome after the auth callback has run for a user. *)
Lemma sign_in_chrome w user :
  chrome (page (authStateChanged (Some user) w))
  = mkChrome
      (orElse (User.displayName user) (splitHead "@" (User.email user)))
      "Active Member" "#28971e" "Online" "Profile"
      (ClassList.add "donate-btn"
         (ClassList.remove "login-btn" (authToggleBtnClasses (chrome (page w)))))
      "block" false "Type your message here..." false.
Proof.
  unfold authStateChanged.
  rewrite updateUserStatus_page, loadOnlineUsers_page, loadMessages_page. reflexivity.
Qed.

(** X14: after a report of a signed-in user the auth button carries the
    class [donate-btn] and not [login-btn], and the input and the send
    button are enabled; after a report of no user it carries [login-btn] and
    not [donate-btn], and both are disabled; its other classes are kept. *)
Theorem auth_button_follows_session (w : World) (user : User.t) :
  let signedInChrome := chrome (page (authStateChanged (Some user) w)) in
  let signedOutChrome := chrome (page (authStateChanged None w)) in
  (In "donate-btn" (authToggleBtnClasses signedInChrome) /\
   ~ In "login-btn" (authToggleBtnClasses signedInChrome) /\
   messageInputDisabled signedInChrome = false /\
   sendButtonDisabled signedInChrome = false) /\
  (In "login-btn" (authToggleBtnClasses signedOutChrome) /\
   ~ In "donate-btn" (authToggleBtnClasses signedOutChrome) /\
   messageInputDisabled signedOutChrome = true /\
   sendButtonDisabled signedOutChrome = true) /\
  (forall c, c <> "login-btn" -> c <> "donate-btn" ->
     (In c (authToggleBtnClasses signedInChrome) <-> In c (authToggleBtnClasses (chrome (page w)))) /\
     (In c (authToggleBtnClasses signedOutChrome) <-> In c (authToggleBtnClasses (chrome (page w))))).
Proof.
  intros signedInChrome signedOutChrome. subst signedInChrome signedOutChrome.
  rewrite sign_in_chrome, sign_out_eq.
  cbn [page chrome set_chrome set_messagesContainer authToggleBtnClasses
       messageInputDisabled sendButtonDisabled].
  generalize (authToggleBtnClasses (chrome (page w))) as classes. intros classes.
  split; [|split].
  - repeat split.
    + apply in_classList_add. auto.
    + rewrite in_classList_add, in_classList_remove. intros [E|[_ E]]; [discriminate E | auto].
  - repeat split.
    + apply in_classList_add. auto.
    + rewrite in_classList_add, in_classList_remove. intros [E|[_ E]]; [discriminate E | auto].
  - intros c Hlogin Hdonate.
    rewrite !in_classList_add, !in_classList_remove. tauto.
Qed.

End FurtherAuth.

Section FurtherChannels.
Context {locale : Locale}.

(** ** Channel items *)

Lemma switchChannel_page k w u item :
  currentUser (this w) = Some u ->
  channelItems (page w) !! k = Some item ->
  page (switchChannel k w)
  = set_channelHeader (markActive k (channelItems (page w)))
      ("#" +:+ dataChannel item) (describeChannel (dataChannel item)) (page w).
Proof.
  intros Hu Hitem. unfold switchChannel. rewrite Hitem, Hu.
  rewrite loadMessages_page. reflexivity.
Qed.

(** X15: after a channel switch by a signed-in user the clicked item, and no
    other, carries the class [active], whatever the items carried before;
    every item keeps its channel id, and the title is the id of the new
    channel behind a [#]. *)
Theorem clicked_item_is_the_active_one (k : nat) (w : World) (u : User.t) (item : ChannelItem) :
  currentUser (this w) = Some u ->
  channelItems (page w) !! k = Some item ->
  let p := page (switchChannel k w) in
  List.length (channelItems p) = List.length (channelItems (page w)) /\
  channelTitle p = "#" +:+ dataChannel item /\
  forall i item',
    channelItems p !! i = Some item' ->
    (In "active" (itemClasses item') <-> i = k) /\
    exists old, channelItems (page w) !! i = Some old /\ dataChannel item' = dataChannel old.
Proof.
  intros Hu Hitem p. subst p. rewrite (switchChannel_page k w u item Hu Hitem).
  cbn [channelItems channelTitle set_channelHeader]. unfold markActive.
  generalize (channelItems (page w)) as items. intros items.
  split; [apply length_imap|]. split; [reflexivity|].
  intros i item' Hi. rewrite list_lookup_imap in Hi.
  destruct (items !! i) as [old|]; [|discriminate].
  simpl in Hi. injection Hi as <-. cbn [itemClasses dataChannel]. split; [|eauto].
  destruct (Nat.eqb_spec i k) as [E|E].
  - rewrite in_classList_add. split; auto.
  - rewrite in_classList_remove. split; [intros [_ H]; congruence | contradiction].
Qed.

End FurtherChannels.

Section FurtherPresence.
Context {locale : Locale}.

(** ** Presence snapshots at the edges *)

(** X16: when the presence callback runs while nobody is signed in (its
    listener is never cancelled), an empty snapshot shows the notice that no
    users are online, and a snapshot with at least one entry makes the
    callback throw after it has emptied the people list and the set of online
    users. *)
Theorem presence_callback_signed_out (w : World) (docs : list UserDoc.t) :
  currentUser (this w) = None ->
  onOnlineUsersSnapshot docs w
  = match docs with
    | [] =>
        Normal (mkWorld (set_onlineUsers ∅ (this w))
                        (set_peopleList [noResults "No users online"] (page w))
                        (db w))
    | _ :: _ =>
        Throw (mkWorld (set_onlineUsers ∅ (this w)) (set_peopleList [] (page w)) (db w))
    end.
Proof.
  intros Hnone. unfold onOnlineUsersSnapshot. destruct docs as [|user docs].
  - open_world w. reflexivity.
  - simpl forEachOnlineUser. open_world w. rewrite Hnone. reflexivity.
Qed.

Lemma othersOnline_only_self me docs :
  Forall (fun user => UserDoc.uid user = me) docs -> othersOnline me docs = [].
Proof.
  induction 1 as [|user docs Hu _ IH]; [reflexivity|]. simpl.
  rewrite Hu, String.eqb_refl. exact IH.
Qed.

(** X17: a presence snapshot that holds entries of the local user only
    leaves the people list empty, without the notice that an empty snapshot
    gives, and the set of online users empty. *)
Theorem presence_of_self_only (w : World) (me : User.t) (user : UserDoc.t) (docs : list UserDoc.t) :
  currentUser (this w) = Some me ->
  Forall (fun d => UserDoc.uid d = User.uid me) (user :: docs) ->
  exists w',
    onOnlineUsersSnapshot (user :: docs) w = Normal w' /\
    peopleList (page w') = [] /\
    onlineUsers (this w') = ∅.
Proof.
  intros Hme Hself. eexists. split; [apply (onOnlineUsersSnapshot_signed_in me), Hme|].
  unfold renderPeople. rewrite (othersOnline_only_self _ _ Hself).
  open_world w. split; reflexivity.
Qed.

End FurtherPresence.

(** ** The forms *)

Ltac open_client c :=
  let w := fresh "w" in
  let f := fresh "f" in
  unfold onForms, onWorld in *; destruct c as [w f]; destruct f; simpl in *.

Lemma isEmpty_false s : isEmpty s = false <-> s <> EmptyString.
Proof. destruct s; simpl; split; congruence. Qed.

Lemma handleRegister_valid name email password confirmPassword c :
  name <> EmptyString -> email <> EmptyString ->
  password <> EmptyString -> confirmPassword <> EmptyString ->
  6 <= String.length password -> password = confirmPassword ->
  handleRegister name email password confirmPassword c
  = onForms (authCall (CallCreateUser email password))
      (onForms (showLoading RegisterLoading true) c).
Proof.
  intros Hn He Hp Hc Hlen Heq. unfold handleRegister.
  apply isEmpty_false in Hn, He, Hp, Hc. rewrite Hn, He, Hp, Hc. simpl orb. cbv iota.
  destruct (Nat.ltb_spec (String.length password) 6); [lia|].
  rewrite Heq, String.eqb_refl. reflexivity.
Qed.

Lemma handleRegister_invalid name email password confirmPassword c :
  ~ ((name <> EmptyString /\ email <> EmptyString /\
      password <> EmptyString /\ confirmPassword <> EmptyString) /\
     6 <= String.length password /\ password = confirmPassword) ->
  handleRegister name email password confirmPassword c
  = onForms
      (showMessage RegisterError
         (if isEmpty name || isEmpty email || isEmpty password || isEmpty confirmPassword
          then "Please fill in all fields"
          else if (String.length password <? 6)%nat
               then "Password must be at least 6 characters"
               else "Passwords do not match")) c.
Proof.
  intros Hinvalid. unfold handleRegister.
  destruct (isEmpty name || isEmpty email || isEmpty password || isEmpty confirmPassword)
    eqn:E; [reflexivity|].
  destruct (Nat.ltb_spec (String.length password) 6) as [Hlen|Hlen]; [reflexivity|].
  destruct (String.eqb_spec password confirmPassword) as [Heq|Hneq]; [|reflexivity].
  exfalso. apply Hinvalid.
  apply orb_false_iff in E as [E Ec]. apply orb_false_iff in E as [E Ep].
  apply orb_false_iff in E as [En Ee].
  rewrite isEmpty_false in En, Ee, Ep, Ec. tauto.
Qed.

(** X18: [handleRegister] asks the auth service for a new account exactly
    when all four fields are filled in, the password has at least six
    characters and the confirmation equals it; then it also switches the
    loading indicator on. Otherwise it calls nothing, leaves the indicator
    alone and shows in the error notice the first of its three complaints
    that applies. *)
Theorem registration_is_validated (name email password confirmPassword : string) (c : Client) :
  let c' := handleRegister name email password confirmPassword c in
  let valid :=
    (name <> EmptyString /\ email <> EmptyString /\
     password <> EmptyString /\ confirmPassword <> EmptyString) /\
    6 <= String.length password /\ password = confirmPassword in
  (valid ->
   authCalls (forms c') = authCalls (forms c) ++ [CallCreateUser email password] /\
   registerLoading (forms c') = ClassList.add "active" (registerLoading (forms c)) /\
   registerError (forms c') = registerError (forms c)) /\
  (~ valid ->
   authCalls (forms c') = authCalls (forms c) /\
   registerLoading (forms c') = registerLoading (forms c) /\
   noticeDisplay (registerError (forms c')) = "block" /\
   noticeText (registerError (forms c'))
     = (if isEmpty name || isEmpty email || isEmpty password || isEmpty confirmPassword
        then "Please fill in all fields"
        else if (String.length password <? 6)%nat
             then "Password must be at least 6 characters"
             else "Passwords do not match")) /\
  world c' = world c.
Proof.
  intros c' valid. subst c' valid. split; [|split].
  - intros ((Hn & He & Hp & Hc) & Hlen & Heq).
    rewrite handleRegister_valid by assumption. open_client c. repeat split.
  - intros Hinvalid. rewrite handleRegister_invalid by exact Hinvalid.
    open_client c. repeat split.
  - unfold handleRegister.
    repeat match goal with |- context [if ?b then _ else _] => destruct b end;
      open_client c; reflexivity.
Qed.

(** X19: [handleLogin] asks the auth service to sign in exactly when both
    fields are filled in, and then switches the loading indicator on;
    otherwise it calls nothing and shows the complaint in the error notice. *)
Theorem login_is_validated (email password : string) (c : Client) :
  let c' := handleLogin email password c in
  (email <> EmptyString /\ password <> EmptyString ->
   authCalls (forms c') = authCalls (forms c) ++ [CallSignIn email password] /\
   loginLoading (forms c') = ClassList.add "active" (loginLoading (forms c)) /\
   loginError (forms c') = loginError (forms c)) /\
  (email = EmptyString \/ password = EmptyString ->
   authCalls (forms c') = authCalls (forms c) /\
   loginLoading (forms c') = loginLoading (forms c) /\
   loginError (forms c') = mkNotice "Please fill in all fields" "block") /\
  world c' = world c.
Proof.
  intros c'. subst c'. unfold handleLogin.
  assert (Hshown : forall message,
            authCalls (forms (onForms (showMessage LoginError message) c)) = authCalls (forms c) /\
            loginLoading (forms (onForms (showMessage LoginError message) c))
              = loginLoading (forms c) /\
            loginError (forms (onForms (showMessage LoginError message) c))
              = mkNotice message "block").
  { intros message. destruct c as [w f]. destruct f. repeat split. }
  destruct email as [|a email], password as [|b password]; cbn [isEmpty orb];
    (split; [|split; [|reflexivity]]).
  - intros [H _]. contradiction.
  - intros _. apply Hshown.
  - intros [H _]. contradiction.
  - intros _. apply Hshown.
  - intros [_ H]. contradiction.
  - intros _. apply Hshown.
  - intros _. destruct c as [w f]. destruct f. repeat split.
  - intros [H|H]; discriminate H.
Qed.

Lemma getErrorMessage_not_empty errorCode : getErrorMessage errorCode <> EmptyString.
Proof.
  unfold getErrorMessage. destruct errorCode as [code|]; [|discriminate].
  destruct (List.find _ errorMessages) as [kv|] eqn:E; [|discriminate].
  apply find_some in E as [Hin _].
  unfold errorMessages in Hin.
  repeat (destruct Hin as [<-|Hin]; [discriminate|]). destruct Hin.
Qed.

(** X20: however a login or a registration settles, the loading indicator
    of its form is off afterwards. A success shows the success notice and
    closes the auth modal; a failure shows a non-empty text in the error
    notice and leaves the instance as it is. *)
Theorem attempts_end_with_loading_off (errorCode : option string) (c : Client) :
  (~ In "active" (loginLoading (forms (loginSucceeded c))) /\
   loginSuccess (forms (loginSucceeded c)) = mkNotice "Login successful!" "block" /\
   ~ In "active" (authModal (page (world (loginSucceeded c))))) /\
  (~ In "active" (loginLoading (forms (loginFailed errorCode c))) /\
   noticeDisplay (loginError (forms (loginFailed errorCode c))) = "block" /\
   noticeText (loginError (forms (loginFailed errorCode c))) <> EmptyString /\
   world (loginFailed errorCode c) = world c) /\
  (~ In "active" (registerLoading (forms (registerCompleted c))) /\
   registerSuccess (forms (registerCompleted c))
     = mkNotice "Account created successfully!" "block" /\
   ~ In "active" (authModal (page (world (registerCompleted c))))) /\
  (~ In "active" (registerLoading (forms (registerFailed errorCode c))) /\
   noticeDisplay (registerError (forms (registerFailed errorCode c))) = "block" /\
   noticeText (registerError (forms (registerFailed errorCode c))) <> EmptyString /\
   world (registerFailed errorCode c) = world c).
Proof.
  unfold loginSucceeded, loginFailed, registerCompleted, registerFailed, closeAuthModal.
  open_client c. open_world w.
  repeat split; try reflexivity; try apply getErrorMessage_not_empty;
    rewrite in_classList_remove; intros [_ H]; congruence.
Qed.

(** X21: a notice hides when the timer of its own [showMessage] fires; but
    when a second message is shown in the same notice while the timer of the
    first is pending, that older timer hides the second message, whose own
    timer is still to come. *)
Theorem older_timer_hides_newer_message (element : NoticeId) (first second : string) (f : AuthForms) :
  timers f = [] ->
  notice element (timerFired (showMessage element first f)) = mkNotice first "none" /\
  timers (timerFired (showMessage element first f)) = [] /\
  let f' := timerFired (showMessage element second (showMessage element first f)) in
  notice element f' = mkNotice second "none" /\
  timers f' = [element].
Proof.
  intros Hnone. unfold timerFired, showMessage.
  destruct f; simpl in *; subst; destruct element; repeat split.
Qed.

(** ** The log of calls *)

Lemma unsubscribedHandles_app a b :
  unsubscribedHandles (a ++ b) = unsubscribedHandles a ++ unsubscribedHandles b.
Proof. apply flat_map_app. Qed.

Lemma removeHandle_gone h ls : ~ In h (map handle (removeHandle h ls)).
Proof.
  rewrite in_map_iff. intros (l & Hh & Hl). unfold removeHandle in Hl.
  apply filter_In in Hl as [_ Hl]. apply negb_true_iff, Nat.eqb_neq in Hl. auto.
Qed.

Lemma storeLog_onSnapshot q cb d :
  StoreLog d -> StoreLog (snd (onSnapshot q cb d)).
Proof.
  intros [Hnd Hlive Hlt Hreg Hmsg]. unfold onSnapshot. simpl.
  split; simpl; rewrite ?unsubscribedHandles_app; simpl; rewrite ?app_nil_r.
  - exact Hnd.
  - intros h Hh. rewrite map_app, in_app_iff. simpl. intros [H|[H|[]]].
    + exact (Hlive h Hh H).
    + specialize (Hlt h Hh). lia.
  - intros h Hh. specialize (Hlt h Hh). lia.
  - intros l Hl. apply in_app_iff in Hl as [Hl|[<-|[]]]; apply in_app_iff.
    + left. apply Hreg, Hl.
    + right. left. reflexivity.
  - intros h Hh. destruct (Hmsg h Hh) as [q' Hq]. exists q'. apply in_app_iff. auto.
Qed.

Lemma storeLog_unsubscribe h q d :
  HandlesOk (nextHandle d) (listeners d) ->
  StoreLog d ->
  In (mkListener h q MessagesCallback) (listeners d) ->
  StoreLog (unsubscribe h d).
Proof.
  intros Hok [Hnd Hlive Hlt Hreg Hmsg] Hin. unfold unsubscribe.
  assert (Hh : In h (map handle (listeners d))).
  { apply in_map_iff. eexists. split; [|exact Hin]. reflexivity. }
  split; simpl; rewrite ?unsubscribedHandles_app; simpl.
  - apply List.NoDup_app; [exact Hnd | repeat constructor; auto |].
    intros x Hx [E|[]]. subst x. exact (Hlive h Hx Hh).
  - intros h' Hh'. apply in_app_iff in Hh' as [Hh'|[<-|[]]].
    + intros H. apply (Hlive h' Hh'). apply in_map_iff in H as (l & E & Hl).
      apply in_map_iff. exists l. split; [exact E | apply (removeHandle_incl h), Hl].
    + apply removeHandle_gone.
  - intros h' Hh'. apply in_app_iff in Hh' as [Hh'|[<-|[]]]; [auto|].
    apply (handlesOk_in_lt _ _ _ Hok Hin).
  - intros l Hl. apply in_app_iff. left. apply Hreg, (removeHandle_incl h), Hl.
  - intros h' Hh'. apply in_app_iff in Hh' as [Hh'|[<-|[]]].
    + destruct (Hmsg h' Hh') as [q' Hq]. exists q'. apply in_app_iff. auto.
    + exists q. apply in_app_iff. left. apply (Hreg _ Hin).
Qed.

Lemma storeLog_other c d :
  match c with CallAddDoc _ _ | CallGetDocs _ => True | _ => False end ->
  StoreLog d -> StoreLog (mkFirestore (listeners d) (nextHandle d) (calls d ++ [c])).
Proof.
  intros Hc [Hnd Hlive Hlt Hreg Hmsg].
  assert (E : unsubscribedHandles (calls d ++ [c]) = unsubscribedHandles (calls d)).
  { rewrite unsubscribedHandles_app. destruct c; try destruct Hc; apply app_nil_r. }
  split; simpl; rewrite ?E; auto.
  - intros l Hl. apply in_app_iff. auto.
  - intros h Hh. destruct (Hmsg h Hh) as [q Hq]. exists q. apply in_app_iff. auto.
Qed.

Section CallLog.
Context {locale : Locale}.

Lemma clearMessageListener_storeLog c w :
  TrackedAs c w -> StoreLog (db w) -> StoreLog (db (clearMessageListener w)).
Proof.
  intros Ht Hs. unfold clearMessageListener.
  destruct (messageListener (this w)) as [h|] eqn:Hh; [|exact Hs].
  pose proof (tracked_listener_live c w h Ht Hh) as Hin. destruct Ht as [Hok _].
  simpl. eapply storeLog_unsubscribe; eauto.
Qed.

Lemma loadMessages_storeLog c w :
  TrackedAs c w -> StoreLog (db w) -> StoreLog (db (loadMessages w)).
Proof.
  intros Ht Hs. unfold loadMessages. destruct (currentUser (this w)); [|exact Hs].
  pose proof (clearMessageListener_storeLog c w Ht Hs) as Hs1.
  revert Hs1. generalize (clearMessageListener w) as w1. intros w1 Hs1.
  apply (storeLog_onSnapshot (messagesQuery (currentChannel (this w1))) MessagesCallback) in Hs1.
  open_world w1. exact Hs1.
Qed.

Lemma loadOnlineUsers_storeLog w : StoreLog (db w) -> StoreLog (db (loadOnlineUsers w)).
Proof.
  intros Hs. unfold loadOnlineUsers. destruct (currentUser (this w)); [|exact Hs].
  apply (storeLog_onSnapshot onlineUsersQuery OnlineUsersCallback) in Hs.
  open_world w. exact Hs.
Qed.

Lemma updateUserStatus_storeLog status w :
  StoreLog (db w) -> StoreLog (db (updateUserStatus status w)).
Proof.
  intros Hs. unfold updateUserStatus. destruct (currentUser (this w)) as [u|]; [|exact Hs].
  apply (storeLog_other (CallGetDocs (userByUidQuery (User.uid u))) _ I) in Hs.
  open_world w. exact Hs.
Qed.

Lemma sendMessage_storeLog w : StoreLog (db w) -> StoreLog (db (sendMessage w)).
Proof.
  intros Hs. unfold sendMessage. destruct (currentUser (this w)) as [u|]; [|exact Hs].
  destruct (isEmpty _); [exact Hs|].
  apply (storeLog_other
           (CallAddDoc "messages"
              (newMessage u (trim (messageInput (page w))) (currentChannel (this w)))) _ I) in Hs.
  open_world w. exact Hs.
Qed.

Lemma authStateChanged_storeLog user w :
  Consistent w -> StoreLog (db w) -> StoreLog (db (authStateChanged user w)).
Proof.
  intros Hw Hs. apply consistent_tracked in Hw as Ht. unfold authStateChanged.
  destruct user as [u|].
  - apply updateUserStatus_storeLog, loadOnlineUsers_storeLog.
    apply (loadMessages_storeLog (currentChannel (this w))).
    + destruct Ht as [Hok Hm]. unfold TrackedAs, messageListeners in *.
      unfold showChatInterface, closeAuthModal. open_world w. auto.
    + unfold showChatInterface, closeAuthModal. open_world w. exact Hs.
  - apply (clearMessageListener_storeLog (currentChannel (this w))).
    + destruct Ht as [Hok Hm]. unfold TrackedAs, messageListeners in *.
      unfold showAuthInterface. open_world w. auto.
    + unfold showAuthInterface. open_world w. exact Hs.
Qed.

Lemma switchChannel_storeLog k w :
  Consistent w -> StoreLog (db w) -> StoreLog (db (switchChannel k w)).
Proof.
  intros Hw Hs. apply consistent_tracked in Hw as Ht. unfold switchChannel.
  destruct (channelItems (page w) !! k) as [item|]; [|exact Hs].
  destruct (currentUser (this w)) as [u|] eqn:Hu.
  - apply (loadMessages_storeLog (currentChannel (this w))).
    + destruct Ht as [Hok Hm]. unfold TrackedAs, messageListeners in *. open_world w. auto.
    + open_world w. exact Hs.
  - unfold openAuthModal. open_world w. exact Hs.
Qed.

Lemma step_storeLog e w :
  Consistent w -> StoreLog (db w) -> StoreLog (db (step e w)).
Proof.
  intros Hw Hs. destruct e; simpl.
  - apply authStateChanged_storeLog; assumption.
  - unfold closeAuthModal. open_world w. exact Hs.
  - apply switchChannel_storeLog; assumption.
  - open_world w. exact Hs.
  - apply sendMessage_storeLog, Hs.
  - unfold sendMessageSettled. destruct ok; open_world w; exact Hs.
  - rewrite handleSearch_eq. open_world w. exact Hs.
  - unfold deliverMessages. destruct (findListener h (db w)) as [l|]; [|exact Hs].
    destruct (callback l); [|exact Hs]. rewrite onMessagesSnapshot_eq. exact Hs.
  - unfold deliverOnlineUsers. destruct (findListener h (db w)) as [l|]; [|exact Hs].
    destruct (callback l); [exact Hs|].
    unfold onOnlineUsersSnapshot. destruct docs; [open_world w; exact Hs|].
    rewrite forEachOnlineUser_db. open_world w. exact Hs.
Qed.

Lemma run_storeLog events : forall w,
  Consistent w -> StoreLog (db w) -> StoreLog (db (run events w)).
Proof.
  induction events as [|e events IH]; intros w Hw Hs; [exact Hs|].
  apply IH; [apply step_consistent, Hw | apply step_storeLog; assumption].
Qed.

Lemma storeLog_new document : StoreLog (db (newAuthUI document)).
Proof.
  split; simpl; try (intros ? []).
  - constructor.
Qed.

(** X22: in every state of a session no handle has been unsubscribed more
    than once, every unsubscribed handle had been handed out for a message
    listener (never for a presence listener) and is no longer live, and every
    live listener was registered by a call of [onSnapshot] in the log. *)
Theorem handles_are_cancelled_once (w : World) :
  Reachable w ->
  List.NoDup (unsubscribedHandles (calls (db w))) /\
  (forall h, In (CallUnsubscribe h) (calls (db w)) ->
             (exists q, In (CallOnSnapshot h q MessagesCallback) (calls (db w))) /\
             findListener h (db w) = None) /\
  (forall l, In l (listeners (db w)) ->
             In (CallOnSnapshot (handle l) (query l) (callback l)) (calls (db w))).
Proof.
  intros (document & events & ->).
  destruct (run_storeLog events (newAuthUI document) (consistent_new document)
              (storeLog_new document)) as [Hnd Hlive _ Hreg Hmsg].
  split; [exact Hnd|]. split; [|exact Hreg].
  intros h Hh.
  assert (Hin : In h (unsubscribedHandles (calls (db (run events (newAuthUI document)))))).
  { unfold unsubscribedHandles. apply in_flat_map. eexists. split; [exact Hh|].
    left. reflexivity. }
  split; [apply Hmsg, Hin|].
  unfold findListener. apply find_none_iff.
  destruct (List.filter _ _) as [|l rest] eqn:E; [reflexivity|]. exfalso.
  assert (Hl : In l (List.filter (fun l => (handle l =? h)%nat)
                       (listeners (db (run events (newAuthUI document))))))
    by (rewrite E; left; reflexivity).
  apply filter_In in Hl as [Hl Eh]. apply Nat.eqb_eq in Eh.
  apply (Hlive h Hin). rewrite <- Eh. apply in_map, Hl.
Qed.

End CallLog.

(** ** The further properties on the sample session *)

(** X2 on a sample text. *)
Lemma escapeHtml_injective_sample : "<b>Hi</b>" = "<b>Hi</b>".
Proof. apply (escapeHtml_injective "<b>Hi</b>" "<b>Hi</b>"). reflexivity. Defined.

Lemma sent_reachable : Reachable (locale := fixedClock) sent.
Proof. apply reachable_step, reachable_step, chatting_reachable. Defined.

(** X4 on the sample session: the record Alice has sent. *)
Lemma writes_sample :
  trim "hello there" = "hello there" /\ "hello there" <> EmptyString.
Proof.
  destruct (writes_are_never_blank (locale := fixedClock) sent
              (newMessage alice "hello there" "ideas") sent_reachable)
    as (Hne & Htrim & _).
  - right. right. right. left. reflexivity.
  - split; [exact Htrim | exact Hne].
Defined.

(** X5 on the sample session: Alice clicks send twice. *)
Lemma sending_twice_sample :
  calls (db (sendMessage (sendMessage typing)))
  = calls (db typing) ++
    [CallAddDoc "messages" (newMessage alice "hello there" "ideas");
     CallAddDoc "messages" (newMessage alice "hello there" "ideas")].
Proof.
  apply (sending_twice_writes_twice typing alice); [reflexivity | discriminate].
Defined.

(** X9 on the sample session: Alice's message is found by its text in
    capitals. *)
Lemma search_finds_own_text_sample :
  In (searchResultItem (locale := fixedClock) early)
     (searchResults (page (step (locale := fixedClock) (SearchTyped "BANANA") chatting))).
Proof.
  apply (search_finds_own_text (locale := fixedClock) chatting early "BANANA").
  - left. reflexivity.
  - reflexivity.
  - reflexivity.
Defined.

(** X11 on the sample session. *)
Lemma message_listener_sample :
  exists h,
    messageListener (this chatting) = Some h /\
    messageListeners chatting = [mkListener h (messagesQuery "ideas") MessagesCallback].
Proof.
  exact (message_listener_follows_session (locale := fixedClock) chatting chatting_reachable).
Defined.

(** X15 on the sample session: Alice clicks the second channel. *)
Lemma clicked_item_sample :
  channelTitle (page (switchChannel 1 chatting)) = "#support" /\
  map itemClasses (channelItems (page (switchChannel 1 chatting)))
    = [["channel-item"]; ["channel-item"; "active"]].
Proof.
  destruct (clicked_item_is_the_active_one 1 chatting alice
              (mkChannelItem "support" ["channel-item"]) eq_refl eq_refl)
    as (_ & Htitle & _).
  split; [exact Htitle | reflexivity].
Defined.

(** X16 on the sample page before anybody has signed in. *)
Lemma presence_callback_signed_out_sample :
  exists w', onOnlineUsersSnapshot [bobDoc] signedOut = Throw w' /\ peopleList (page w') = [].
Proof.
  eexists. split.
  - exact (presence_callback_signed_out signedOut [bobDoc] eq_refl).
  - reflexivity.
Defined.

(** X17 on the sample session: the snapshot holds Alice's own entry only. *)
Lemma presence_of_self_only_sample :
  exists w', onOnlineUsersSnapshot [aliceDoc] signedIn = Normal w' /\ peopleList (page w') = [].
Proof.
  destruct (presence_of_self_only signedIn alice aliceDoc [] eq_refl)
    as (w' & Hrun & Hlist & _).
  - repeat constructor.
  - exists w'. split; assumption.
Defined.

(** X21 on the sample forms. *)
Lemma older_timer_sample :
  notice LoginError
    (timerFired (showMessage LoginError "Incorrect password"
                   (showMessage LoginError "Please fill in all fields" sampleForms)))
  = mkNotice "Incorrect password" "none".
Proof.
  apply (older_timer_hides_newer_message LoginError "Please fill in all fields"
           "Incorrect password" sampleForms eq_refl).
Defined.

Lemma switched_reachable : Reachable (locale := fixedClock) switched.
Proof. apply reachable_step, chatting_reachable. Defined.

(** X22 on the sample session after the channel switch: the one handle that
    was unsubscribed is no longer live. *)
Lemma handles_cancelled_sample :
  unsubscribedHandles (calls (db switched)) = [0] /\ findListener 0 (db switched) = None.
Proof.
  destruct (handles_are_cancelled_once (locale := fixedClock) switched switched_reachable)
    as (_ & Hgone & _).
  split; [reflexivity|]. apply Hgone. right. right. right. left. reflexivity.
Defined.

(** X3 on a sample user: Bob has neither a display name nor a photo. *)
Lemma generated_avatar_sample :
  exists name,
    Message.avatar (newMessage bob "hi" "ideas")
    = Some ("https://ui-avatars.com/api/?name=" +:+ name +:+ "&background=ec4899&color=fff").
Proof.
  destruct (generated_avatar_is_well_formed bob "hi" "ideas") as (name & _ & Havatar & _).
  - left. reflexivity.
  - exists name. exact Havatar.
Defined.
